(** * ui-service/script.js: the browser client of the transport recommender

    A shallow embedding of [script.js] and the properties of its form
    controller, recommendation client, result renderer and preference store.

    - A JSON payload is a JavaScript value ([value]); an object is a finite
      map from property names to values, and reading a property, testing
      truthiness, converting to a string and calling a method follow
      ECMAScript, exceptions included.
    - Strings are well-formed Unicode text held as UTF-8 bytes.
    - IEEE doubles are not modelled: the number type and the engine
      primitives on it ([Number::toString], [toFixed(2)], ...) form the
      interface [Numbers], and every property holds for every instance;
      [Cents] is one instance, used to run the samples.
    - The page is a record of the properties that the script reads and
      writes; [localStorage] is a finite map; an [async] function is a task
      that records the state of the page at every [await] and resumes with
      what the network delivers.
    - [index.html] is not part of the sources: the options of the preference
      control and the initial contents of the page are left open. *)

From Stdlib Require Import ZArith String Ascii List DecimalString.
From stdpp Require Import gmap strings list fin_maps.

Set Warnings "-register-all".

Local Open Scope string_scope.

(** ** Exceptions *)

(** A JavaScript error object: the script reads [message] and attaches
    [status]. *)
Record exn := mkExn {
  err_name : string;
  err_message : string;
  err_status : option nat
}.

(** [new Error(message)] *)
Definition new_Error (message : string) : exn :=
  {| err_name := "Error"; err_message := message; err_status := None |}.

(** An engine-raised [TypeError]; the wording of its message is the engine's. *)
Definition TypeError (message : string) : exn :=
  {| err_name := "TypeError"; err_message := message; err_status := None |}.

(** [error.status = n] *)
Definition set_status (n : nat) (e : exn) : exn :=
  {| err_name := err_name e; err_message := err_message e; err_status := Some n |}.

(** Evaluation of an expression: a value or a thrown exception. *)
Inductive result (A : Type) : Type :=
| Ok (a : A)
| Throw (e : exn).
Arguments Ok {A} a.
Arguments Throw {A} e.

#[export] Instance result_ret : MRet result := fun A a => Ok a.
#[export] Instance result_bind : MBind result := fun A B f r =>
  match r with
  | Ok a => f a
  | Throw e => Throw e
  end.

(** ** Numbers *)

(** The engine's primitives on doubles that the script relies on. *)
Class Numbers := {
  number : Type;
  (** [Number::toString(x, 10)], used by template literals *)
  Number_toString : number -> string;
  (** [Number.prototype.toFixed] called with [2] *)
  Number_toFixed2 : number -> string;
  (** [ToBoolean]: false for [+0], [-0] and [NaN] *)
  Number_ToBoolean : number -> bool;
  (** [x > 0] *)
  Number_positive : number -> bool;
  (** [StringToNumber], the conversion of a string operand of [>] *)
  StringToNumber : string -> number
}.

(** ** Strings *)

Definition dquote : string := String (ascii_of_nat 34) EmptyString.
Definition newline : string := String (ascii_of_nat 10) EmptyString.

(** [Array.prototype.join] on strings *)
Fixpoint join (sep : string) (l : list string) : string :=
  match l with
  | [] => EmptyString
  | [x] => x
  | x :: r => x +:+ sep +:+ join sep r
  end.

(** [status] of a response and array lengths are small integers, printed in
    decimal. *)
Definition string_of_nat (n : nat) : string :=
  NilEmpty.string_of_uint (Nat.to_uint n).

Definition is_empty (s : string) : bool :=
  match s with
  | EmptyString => true
  | String _ _ => false
  end.

(** *** [String.prototype.trim]

    White space and line terminators of ECMAScript, in UTF-8:
    U+0009..U+000D, U+0020, U+00A0, U+1680, U+2000..U+200A, U+2028, U+2029,
    U+202F, U+205F, U+3000, U+FEFF. *)

Definition ws1 (c : ascii) : bool :=
  let n := nat_of_ascii c in
  (((9 <=? n) && (n <=? 13)) || (n =? 32))%nat.

Definition ws2 (c1 c2 : ascii) : bool :=
  ((nat_of_ascii c1 =? 194) && (nat_of_ascii c2 =? 160))%nat.

Definition ws3 (c1 c2 c3 : ascii) : bool :=
  let a := nat_of_ascii c1 in
  let b := nat_of_ascii c2 in
  let c := nat_of_ascii c3 in
  (((a =? 225) && (b =? 154) && (c =? 128))
   || ((a =? 226) && (b =? 128)
       && (((128 <=? c) && (c <=? 138)) || (c =? 168) || (c =? 169) || (c =? 175)))
   || ((a =? 226) && (b =? 129) && (c =? 159))
   || ((a =? 227) && (b =? 128) && (c =? 128))
   || ((a =? 239) && (b =? 187) && (c =? 191)))%nat.

Fixpoint trimStart (s : string) : string :=
  match s with
  | EmptyString => EmptyString
  | String c1 r1 =>
      if ws1 c1 then trimStart r1
      else match r1 with
           | EmptyString => s
           | String c2 r2 =>
               if ws2 c1 c2 then trimStart r2
               else match r2 with
                    | EmptyString => s
                    | String c3 r3 => if ws3 c1 c2 c3 then trimStart r3 else s
                    end
           end
  end.

Fixpoint trimEnd (s : string) : string :=
  match s with
  | EmptyString => EmptyString
  | String c r => if is_empty (trimStart s) then EmptyString else String c (trimEnd r)
  end.

Definition trim (s : string) : string := trimEnd (trimStart s).

(** *** [encodeURIComponent]

    Every byte of the UTF-8 form is escaped as [%XX] except the unreserved
    marks [A-Z a-z 0-9 - _ . ! ~ * ' ( )]. *)

Definition uri_unreserved (c : ascii) : bool :=
  let n := nat_of_ascii c in
  (((65 <=? n) && (n <=? 90)) || ((97 <=? n) && (n <=? 122))
   || ((48 <=? n) && (n <=? 57))
   || (n =? 45) || (n =? 95) || (n =? 46) || (n =? 33) || (n =? 126)
   || (n =? 42) || (n =? 39) || (n =? 40) || (n =? 41))%nat.

Definition hex_digit (n : nat) : ascii :=
  if (n <? 10)%nat then ascii_of_nat (48 + n) else ascii_of_nat (55 + n).

Definition percent_escape (c : ascii) : string :=
  let n := nat_of_ascii c in
  String "%" (String (hex_digit (n / 16)) (String (hex_digit (n mod 16)) EmptyString)).

Fixpoint encodeURIComponent (s : string) : string :=
  match s with
  | EmptyString => EmptyString
  | String c r =>
      if uri_unreserved c then String c (encodeURIComponent r)
      else percent_escape c +:+ encodeURIComponent r
  end.

(** ** JavaScript values *)

Section Script.
Context `{Numbers}.

(** What [JSON.parse] returns, and [undefined] for the properties that are
    not there. *)
Inductive value : Type :=
| VUndefined
| VNull
| VBool (b : bool)
| VNum (n : number)
| VStr (s : string)
| VArr (elems : list value)
| VObj (fields : gmap string value).

(** [ToBoolean], the test of [if], [&&], [||] and [!] *)
Definition ToBoolean (v : value) : bool :=
  match v with
  | VUndefined | VNull => false
  | VBool b => b
  | VNum n => Number_ToBoolean n
  | VStr s => negb (is_empty s)
  | VArr _ | VObj _ => true
  end.

(** [a || b] on values already evaluated *)
Definition or_else (a b : value) : value := if ToBoolean a then a else b.

(** [ToString], the conversion done by a template literal and by
    [new Error(...)]. An array is joined with commas, its [null] and
    [undefined] elements printing as nothing. A parsed object prints through
    [Object.prototype.toString] unless an own [toString] property, never
    callable in parsed JSON, hides that method. *)
Fixpoint ToString (v : value) : result string :=
  match v with
  | VUndefined => Ok "undefined"
  | VNull => Ok "null"
  | VBool true => Ok "true"
  | VBool false => Ok "false"
  | VNum n => Ok (Number_toString n)
  | VStr s => Ok s
  | VArr elems =>
      parts ← (fix each (l : list value) : result (list string) :=
                 match l with
                 | [] => Ok []
                 | x :: r =>
                     s ← match x with
                         | VUndefined | VNull => Ok EmptyString
                         | _ => ToString x
                         end;
                     ss ← each r;
                     Ok (s :: ss)
                 end) elems;
      Ok (join "," parts)
  | VObj fields =>
      match fields !! "toString" with
      | Some _ => Throw (TypeError "Cannot convert object to primitive value")
      | None => Ok "[object Object]"
      end
  end.

(** [v.name] for a property name that no built-in prototype defines, which
    holds for every data property the script reads ([origin], [city],
    [notes], [recommendations], [mode], [duration_minutes], [cost_usd],
    [environmental_impact_co2_kg], [source_cloud], [error], [details]). *)
Definition Get (v : value) (name : string) : result value :=
  match v with
  | VUndefined =>
      Throw (TypeError ("Cannot read properties of undefined (reading '" +:+ name +:+ "')"))
  | VNull =>
      Throw (TypeError ("Cannot read properties of null (reading '" +:+ name +:+ "')"))
  | VObj fields => Ok (default VUndefined (fields !! name))
  | VBool _ | VNum _ | VStr _ | VArr _ => Ok VUndefined
  end.

(** [v > 0] *)
Definition gt_zero (v : value) : result bool :=
  match v with
  | VUndefined | VNull => Ok false
  | VBool b => Ok b
  | VNum n => Ok (Number_positive n)
  | VStr s => Ok (Number_positive (StringToNumber s))
  | VArr _ | VObj _ => s ← ToString v; Ok (Number_positive (StringToNumber s))
  end.

(** [v.length > 0] *)
Definition length_gt_zero (v : value) : result bool :=
  match v with
  | VUndefined | VNull => _ ← Get v "length"; Ok false
  | VBool _ | VNum _ => Ok false
  | VStr s => Ok (negb (is_empty s))
  | VArr elems => Ok (match elems with [] => false | _ :: _ => true end)
  | VObj fields => gt_zero (default VUndefined (fields !! "length"))
  end.

(** [v.toFixed(2)]: only a number has the method. *)
Definition toFixed2 (v : value) : result string :=
  match v with
  | VNum n => Ok (Number_toFixed2 n)
  | VUndefined | VNull => _ ← Get v "toFixed"; Ok EmptyString
  | VBool _ | VStr _ | VArr _ | VObj _ => Throw (TypeError "toFixed is not a function")
  end.

(** [v.map(f).join('')] for a callback [f] that returns strings: only an
    array has the method. *)
Fixpoint map_strings (f : value -> result string) (l : list value) : result (list string) :=
  match l with
  | [] => Ok []
  | x :: r => s ← f x; ss ← map_strings f r; Ok (s :: ss)
  end.

Definition map_join (v : value) (f : value -> result string) : result string :=
  match v with
  | VArr elems => parts ← map_strings f elems; Ok (join EmptyString parts)
  | VUndefined | VNull => _ ← Get v "map"; Ok EmptyString
  | VBool _ | VNum _ | VStr _ | VObj _ => Throw (TypeError "map is not a function")
  end.

(** The elements that [v.forEach] visits: only an array has the method. *)
Definition forEach_elements (v : value) : result (list value) :=
  match v with
  | VArr elems => Ok elems
  | VUndefined | VNull => _ ← Get v "forEach"; Ok []
  | VBool _ | VNum _ | VStr _ | VObj _ => Throw (TypeError "forEach is not a function")
  end.

(** ** The page *)

(** The [<select>] behind [preferenceSelect]. Its options are those of the
    page; assigning [value] selects the option with that value, and leaves
    nothing selected, so that [value] reads as the empty string, when there
    is none. *)
Record select := mkSelect {
  options : list string;
  selected : string
}.

Definition set_select_value (v : string) (c : select) : select :=
  {| options := options c;
     selected := if bool_decide (v ∈ options c) then v else EmptyString |}.

(** A child of [recommendationList]: what the parser makes of markup
    assigned to [innerHTML], or an [<li>] that the script created and
    filled through its own [innerHTML]. *)
Inductive node : Type :=
| Markup (html : string)
| Li (innerHTML : string).

(** The properties of the page, the storage and the console that
    [script.js] reads and writes. *)
Record state := mkState {
  destinationInput_value : string;
  preferenceSelect : select;
  submitButton_disabled : bool;
  resultsArea_display : string;
  originInfoDiv_innerHTML : string;
  notesInfoDiv_innerHTML : string;
  notesInfoDiv_display : string;
  recommendationList : list node;
  loadingDiv_display : string;
  errorDiv_textContent : string;
  errorDiv_display : string;
  localStorage : gmap string string;
  console : list string
}.

Definition set_destinationInput_value (v : string) (s : state) : state :=
  {| destinationInput_value := v;
     preferenceSelect := preferenceSelect s;
     submitButton_disabled := submitButton_disabled s;
     resultsArea_display := resultsArea_display s;
     originInfoDiv_innerHTML := originInfoDiv_innerHTML s;
     notesInfoDiv_innerHTML := notesInfoDiv_innerHTML s;
     notesInfoDiv_display := notesInfoDiv_display s;
     recommendationList := recommendationList s;
     loadingDiv_display := loadingDiv_display s;
     errorDiv_textContent := errorDiv_textContent s;
     errorDiv_display := errorDiv_display s;
     localStorage := localStorage s;
     console := console s |}.

Definition set_preferenceSelect (v : select) (s : state) : state :=
  {| destinationInput_value := destinationInput_value s;
     preferenceSelect := v;
     submitButton_disabled := submitButton_disabled s;
     resultsArea_display := resultsArea_display s;
     originInfoDiv_innerHTML := originInfoDiv_innerHTML s;
     notesInfoDiv_innerHTML := notesInfoDiv_innerHTML s;
     notesInfoDiv_display := notesInfoDiv_display s;
     recommendationList := recommendationList s;
     loadingDiv_display := loadingDiv_display s;
     errorDiv_textContent := errorDiv_textContent s;
     errorDiv_display := errorDiv_display s;
     localStorage := localStorage s;
     console := console s |}.

Definition set_submitButton_disabled (v : bool) (s : state) : state :=
  {| destinationInput_value := destinationInput_value s;
     preferenceSelect := preferenceSelect s;
     submitButton_disabled := v;
     resultsArea_display := resultsArea_display s;
     originInfoDiv_innerHTML := originInfoDiv_innerHTML s;
     notesInfoDiv_innerHTML := notesInfoDiv_innerHTML s;
     notesInfoDiv_display := notesInfoDiv_display s;
     recommendationList := recommendationList s;
     loadingDiv_display := loadingDiv_display s;
     errorDiv_textContent := errorDiv_textContent s;
     errorDiv_display := errorDiv_display s;
     localStorage := localStorage s;
     console := console s |}.

Definition set_resultsArea_display (v : string) (s : state) : state :=
  {| destinationInput_value := destinationInput_value s;
     preferenceSelect := preferenceSelect s;
     submitButton_disabled := submitButton_disabled s;
     resultsArea_display := v;
     originInfoDiv_innerHTML := originInfoDiv_innerHTML s;
     notesInfoDiv_innerHTML := notesInfoDiv_innerHTML s;
     notesInfoDiv_display := notesInfoDiv_display s;
     recommendationList := recommendationList s;
     loadingDiv_display := loadingDiv_display s;
     errorDiv_textContent := errorDiv_textContent s;
     errorDiv_display := errorDiv_display s;
     localStorage := localStorage s;
     console := console s |}.

Definition set_originInfoDiv_innerHTML (v : string) (s : state) : state :=
  {| destinationInput_value := destinationInput_value s;
     preferenceSelect := preferenceSelect s;
     submitButton_disabled := submitButton_disabled s;
     resultsArea_display := resultsArea_display s;
     originInfoDiv_innerHTML := v;
     notesInfoDiv_innerHTML := notesInfoDiv_innerHTML s;
     notesInfoDiv_display := notesInfoDiv_display s;
     recommendationList := recommendationList s;
     loadingDiv_display := loadingDiv_display s;
     errorDiv_textContent := errorDiv_textContent s;
     errorDiv_display := errorDiv_display s;
     localStorage := localStorage s;
     console := console s |}.

Definition set_notesInfoDiv_innerHTML (v : string) (s : state) : state :=
  {| destinationInput_value := destinationInput_value s;
     preferenceSelect := preferenceSelect s;
     submitButton_disabled := submitButton_disabled s;
     resultsArea_display := resultsArea_display s;
     originInfoDiv_innerHTML := originInfoDiv_innerHTML s;
     notesInfoDiv_innerHTML := v;
     notesInfoDiv_display := notesInfoDiv_display s;
     recommendationList := recommendationList s;
     loadingDiv_display := loadingDiv_display s;
     errorDiv_textContent := errorDiv_textContent s;
     errorDiv_display := errorDiv_display s;
     localStorage := localStorage s;
     console := console s |}.

Definition set_notesInfoDiv_display (v : string) (s : state) : state :=
  {| destinationInput_value := destinationInput_value s;
     preferenceSelect := preferenceSelect s;
     submitButton_disabled := submitButton_disabled s;
     resultsArea_display := resultsArea_display s;
     originInfoDiv_innerHTML := originInfoDiv_innerHTML s;
     notesInfoDiv_innerHTML := notesInfoDiv_innerHTML s;
     notesInfoDiv_display := v;
     recommendationList := recommendationList s;
     loadingDiv_display := loadingDiv_display s;
     errorDiv_textContent := errorDiv_textContent s;
     errorDiv_display := errorDiv_display s;
     localStorage := localStorage s;
     console := console s |}.

Definition set_loadingDiv_display (v : string) (s : state) : state :=
  {| destinationInput_value := destinationInput_value s;
     preferenceSelect := preferenceSelect s;
     submitButton_disabled := submitButton_disabled s;
     resultsArea_display := resultsArea_display s;
     originInfoDiv_innerHTML := originInfoDiv_innerHTML s;
     notesInfoDiv_innerHTML := notesInfoDiv_innerHTML s;
     notesInfoDiv_display := notesInfoDiv_display s;
     recommendationList := recommendationList s;
     loadingDiv_display := v;
     errorDiv_textContent := errorDiv_textContent s;
     errorDiv_display := errorDiv_display s;
     localStorage := localStorage s;
     console := console s |}.

Definition set_errorDiv_textContent (v : string) (s : state) : state :=
  {| destinationInput_value := destinationInput_value s;
     preferenceSelect := preferenceSelect s;
     submitButton_disabled := submitButton_disabled s;
     resultsArea_display := resultsArea_display s;
     originInfoDiv_innerHTML := originInfoDiv_innerHTML s;
     notesInfoDiv_innerHTML := notesInfoDiv_innerHTML s;
     notesInfoDiv_display := notesInfoDiv_display s;
     recommendationList := recommendationList s;
     loadingDiv_display := loadingDiv_display s;
     errorDiv_textContent := v;
     errorDiv_display := errorDiv_display s;
     localStorage := localStorage s;
     console := console s |}.

Definition set_errorDiv_display (v : string) (s : state) : state :=
  {| destinationInput_value := destinationInput_value s;
     preferenceSelect := preferenceSelect s;
     submitButton_disabled := submitButton_disabled s;
     resultsArea_display := resultsArea_display s;
     originInfoDiv_innerHTML := originInfoDiv_innerHTML s;
     notesInfoDiv_innerHTML := notesInfoDiv_innerHTML s;
     notesInfoDiv_display := notesInfoDiv_display s;
     recommendationList := recommendationList s;
     loadingDiv_display := loadingDiv_display s;
     errorDiv_textContent := errorDiv_textContent s;
     errorDiv_display := v;
     localStorage := localStorage s;
     console := console s |}.

Definition set_localStorage (v : gmap string string) (s : state) : state :=
  {| destinationInput_value := destinationInput_value s;
     preferenceSelect := preferenceSelect s;
     submitButton_disabled := submitButton_disabled s;
     resultsArea_display := resultsArea_display s;
     originInfoDiv_innerHTML := originInfoDiv_innerHTML s;
     notesInfoDiv_innerHTML := notesInfoDiv_innerHTML s;
     notesInfoDiv_display := notesInfoDiv_display s;
     recommendationList := recommendationList s;
     loadingDiv_display := loadingDiv_display s;
     errorDiv_textContent := errorDiv_textContent s;
     errorDiv_display := errorDiv_display s;
     localStorage := v;
     console := console s |}.

Definition set_console (v : list string) (s : state) : state :=
  {| destinationInput_value := destinationInput_value s;
     preferenceSelect := preferenceSelect s;
     submitButton_disabled := submitButton_disabled s;
     resultsArea_display := resultsArea_display s;
     originInfoDiv_innerHTML := originInfoDiv_innerHTML s;
     notesInfoDiv_innerHTML := notesInfoDiv_innerHTML s;
     notesInfoDiv_display := notesInfoDiv_display s;
     recommendationList := recommendationList s;
     loadingDiv_display := loadingDiv_display s;
     errorDiv_textContent := errorDiv_textContent s;
     errorDiv_display := errorDiv_display s;
     localStorage := localStorage s;
     console := v |}.

Definition set_recommendationList (v : list node) (s : state) : state :=
  {| destinationInput_value := destinationInput_value s;
     preferenceSelect := preferenceSelect s;
     submitButton_disabled := submitButton_disabled s;
     resultsArea_display := resultsArea_display s;
     originInfoDiv_innerHTML := originInfoDiv_innerHTML s;
     notesInfoDiv_innerHTML := notesInfoDiv_innerHTML s;
     notesInfoDiv_display := notesInfoDiv_display s;
     recommendationList := v;
     loadingDiv_display := loadingDiv_display s;
     errorDiv_textContent := errorDiv_textContent s;
     errorDiv_display := errorDiv_display s;
     localStorage := localStorage s;
     console := console s |}.

(** [recommendationList.innerHTML = html] *)
Definition set_recommendationList_innerHTML (html : string) (s : state) : state :=
  set_recommendationList (if is_empty html then [] else [Markup html]) s.

(** [recommendationList.appendChild(li)] *)
Definition recommendationList_appendChild (li : node) (s : state) : state :=
  set_recommendationList (recommendationList s ++ [li]) s.

(** ** Asynchronous tasks *)

(** A response of the gateway: its status line and what [response.json()]
    settles to. *)
Record response := mkResponse {
  status : nat;
  json : result value
}.

(** [response.ok] *)
Definition ok (r : response) : bool :=
  ((200 <=? status r) && (status r <=? 299))%nat.

(** How the promise of [fetch] settles. *)
Inductive fetch_outcome : Type :=
| Resolved (r : response)
| Rejected (e : exn).

(** A run of script code: settled with a result and the state it leaves, or
    suspended at an [await] with the state it leaves meanwhile. The
    continuation takes the outcome and the state found on resumption. *)
Inductive task (A : Type) : Type :=
| Settled (r : result A) (s : state)
| AwaitFetch (s : state) (url : string) (k : fetch_outcome -> state -> task A)
| AwaitJson (s : state) (r : response) (k : result value -> state -> task A).
#[global] Arguments Settled {A} r s.
#[global] Arguments AwaitFetch {A} s url k.
#[global] Arguments AwaitJson {A} s r k.

Definition M (A : Type) : Type := state -> task A.

Fixpoint task_bind {A B : Type} (f : A -> M B) (t : task A) : task B :=
  match t with
  | Settled (Ok a) s => f a s
  | Settled (Throw e) s => Settled (Throw e) s
  | AwaitFetch s url k => AwaitFetch s url (fun o s' => task_bind f (k o s'))
  | AwaitJson s r k => AwaitJson s r (fun o s' => task_bind f (k o s'))
  end.

#[export] Instance M_ret : MRet M := fun A a s => Settled (Ok a) s.
#[export] Instance M_bind : MBind M := fun A B f m s => task_bind f (m s).

Definition lift {A : Type} (r : result A) : M A := fun s => Settled r s.
Definition throw {A : Type} (e : exn) : M A := fun s => Settled (Throw e) s.
Definition gets {A : Type} (f : state -> A) : M A := fun s => Settled (Ok (f s)) s.
Definition modify (f : state -> state) : M unit := fun s => Settled (Ok tt) (f s).

(** [await fetch(url)] *)
Definition await_fetch (url : string) : M response := fun s =>
  AwaitFetch s url (fun o s' =>
    match o with
    | Resolved r => Settled (Ok r) s'
    | Rejected e => Settled (Throw e) s'
    end).

(** [await response.json()] *)
Definition await_json (r : response) : M value := fun s =>
  AwaitJson s r (fun o s' => Settled o s').

(** [try { body } catch (e) { handler }] *)
Fixpoint task_catch {A : Type} (handler : exn -> M A) (t : task A) : task A :=
  match t with
  | Settled (Ok a) s => Settled (Ok a) s
  | Settled (Throw e) s => handler e s
  | AwaitFetch s url k => AwaitFetch s url (fun o s' => task_catch handler (k o s'))
  | AwaitJson s r k => AwaitJson s r (fun o s' => task_catch handler (k o s'))
  end.

Definition try_catch {A : Type} (body : M A) (handler : exn -> M A) : M A :=
  fun s => task_catch handler (body s).

(** [try { body } finally { cleanup }]: the cleanup runs however the body
    settles, and the body's outcome stands unless the cleanup throws. *)
Fixpoint task_finally {A : Type} (cleanup : M unit) (t : task A) : task A :=
  match t with
  | Settled r s => task_bind (fun _ s' => Settled r s') (cleanup s)
  | AwaitFetch s url k => AwaitFetch s url (fun o s' => task_finally cleanup (k o s'))
  | AwaitJson s r k => AwaitJson s r (fun o s' => task_finally cleanup (k o s'))
  end.

Definition try_finally {A : Type} (body : M A) (cleanup : M unit) : M A :=
  fun s => task_finally cleanup (body s).

(** [list.forEach(f)] *)
Fixpoint forEach {A : Type} (l : list A) (f : A -> M unit) : M unit :=
  match l with
  | [] => mret tt
  | x :: r => f x;; forEach r f
  end.

Definition console_log (line : string) : M unit :=
  modify (fun s => set_console (console s ++ [line]) s).

(** ** The script *)

Definition PREFERENCE_STORAGE_KEY : string := "transportPreference".

(** [v === text] for a string literal [text] *)
Definition strict_eq_string (v : value) (text : string) : bool :=
  match v with
  | VStr s => String.eqb s text
  | _ => false
  end.

(** *** [fetchRecommendations] (lines 29-56), called with two arguments *)
Definition fetchRecommendations (destination preference : string) : M value :=
  let relativeUrl :=
    "/api/route?destination=" +:+ encodeURIComponent destination
    +:+ "&preference=" +:+ encodeURIComponent preference in
  response ← await_fetch relativeUrl;
  if negb (ok response) then
    let errorData_message :=
      VStr ("Server responded with status: " +:+ string_of_nat (status response)) in
    message ← try_catch
      (body ← await_json response;
       error ← lift (Get body "error");
       if ToBoolean error then mret error
       else
         details ← lift (Get body "details");
         mret (or_else details errorData_message))
      (fun e =>
         console_log "Could not parse error response body as JSON.";;
         mret errorData_message);
    text ← lift (ToString message);
    throw (set_status (status response) (new_Error text))
  else
    await_json response.

(** The mode icons of lines 85-91. *)
Definition mode_icon (mode : value) : string :=
  if strict_eq_string mode "car" then "🚗"
  else if strict_eq_string mode "bus" then "🚌"
  else if strict_eq_string mode "train" then "🚆"
  else if strict_eq_string mode "bicycle" then "🚲"
  else if strict_eq_string mode "walking" then "🚶"
  else if strict_eq_string mode "scooter" then "🛴"
  else EmptyString.

Definition indent16 : string := newline +:+ "                ".
Definition indent12 : string := newline +:+ "            ".

(** The template literal of lines 93-99, its five lines between the
    line breaks and indentation of the source. *)
Definition li_template (icon mode duration cost co2 source : string) : string :=
  indent16 +:+ "<div><span class=" +:+ dquote +:+ "mode-icon" +:+ dquote +:+ ">" +:+ icon
    +:+ "</span><strong>Mode:</strong> " +:+ mode +:+ "</div>"
  +:+ indent16 +:+ "<div><strong>Duration:</strong> " +:+ duration +:+ " minutes</div>"
  +:+ indent16 +:+ "<div><strong>Est. Cost:</strong> $" +:+ cost +:+ "</div>"
  +:+ indent16 +:+ "<div><strong>CO2 Emissions:</strong> " +:+ co2 +:+ " kg</div>"
  +:+ indent16 +:+ "<div class=" +:+ dquote +:+ "source" +:+ dquote +:+ ">(Source: "
    +:+ source +:+ ")</div>"
  +:+ indent12.

(** The markup of one entry (lines 85-99). *)
Definition render_recommendation (rec : value) : result string :=
  mode ← Get rec "mode";
  let icon := mode_icon mode in
  mode_text ← ToString mode;
  duration ← Get rec "duration_minutes";
  duration_text ← ToString duration;
  cost_usd ← Get rec "cost_usd";
  cost_text ← toFixed2 cost_usd;
  co2_kg ← Get rec "environmental_impact_co2_kg";
  co2_text ← toFixed2 co2_kg;
  source_cloud ← Get rec "source_cloud";
  source_text ← ToString (or_else source_cloud (VStr "Unknown Cloud"));
  Ok (li_template icon mode_text duration_text cost_text co2_text source_text).

(** The callback of [forEach]: one new [<li>] with that markup (lines 83,
    93 and 100). *)
Definition append_recommendation (rec : value) : M unit :=
  html ← lift (render_recommendation rec);
  modify (recommendationList_appendChild (Li html)).

(** The callback of [map] (line 72): the markup of one note. *)
Definition render_note (note : value) : result string :=
  text ← ToString note;
  Ok ("<p>" +:+ text +:+ "</p>").

(** *** [displayResults] (lines 62-105), in the three parts that its
    comments name *)

(** "Display Origin Info" (lines 63-68) *)
Definition display_origin (data : value) : M unit :=
  origin ← lift (Get data "origin");
  city ← (if ToBoolean origin then lift (Get origin "city") else mret origin);
  if ToBoolean city then
    city_text ← lift (ToString city);
    modify (set_originInfoDiv_innerHTML
              ("<p><strong>Detected Origin:</strong> " +:+ city_text +:+ "</p>"))
  else
    modify (set_originInfoDiv_innerHTML "<p>Origin information not available.</p>").

(** "Display Notes/Warnings" (lines 70-76) *)
Definition display_notes (data : value) : M unit :=
  notes ← lift (Get data "notes");
  has_notes ← (if ToBoolean notes then lift (length_gt_zero notes) else mret false);
  if has_notes : bool then
    html ← lift (map_join notes render_note);
    modify (set_notesInfoDiv_innerHTML html);;
    modify (set_notesInfoDiv_display "block")
  else
    modify (set_notesInfoDiv_display "none").

(** "Display Recommendations" (lines 79-104) *)
Definition display_recommendations (data : value) : M unit :=
  modify (set_recommendationList_innerHTML EmptyString);;
  recommendations ← lift (Get data "recommendations");
  has_recommendations ←
    (if ToBoolean recommendations then lift (length_gt_zero recommendations)
     else mret false);
  if has_recommendations : bool then
    elems ← lift (forEach_elements recommendations);
    forEach elems append_recommendation
  else
    modify (set_recommendationList_innerHTML
              "<li>No recommendations found matching your criteria.</li>").

Definition displayResults (data : value) : M unit :=
  display_origin data;;
  display_notes data;;
  display_recommendations data.

(** *** [displayError] (lines 111-114) *)
Definition displayError (message : string) : M unit :=
  modify (set_errorDiv_textContent ("Error: " +:+ message));;
  modify (set_errorDiv_display "block").

(** *** [clearResults] (lines 119-126) *)
Definition clearResults : M unit :=
  modify (set_recommendationList_innerHTML EmptyString);;
  modify (set_originInfoDiv_innerHTML EmptyString);;
  modify (set_notesInfoDiv_innerHTML EmptyString);;
  modify (set_errorDiv_textContent EmptyString);;
  modify (set_errorDiv_display "none");;
  modify (set_resultsArea_display "none").

(** *** [savePreference] (lines 131-133) *)
Definition savePreference : M unit :=
  modify (fun s =>
    set_localStorage
      (<[PREFERENCE_STORAGE_KEY := selected (preferenceSelect s)]> (localStorage s)) s).

(** *** [loadPreference] (lines 138-143); [getItem] gives [null] for a key
    that is not stored, and both [null] and the empty string are falsy. *)
Definition loadPreference : M unit :=
  savedPreference ← gets (fun s => localStorage s !! PREFERENCE_STORAGE_KEY);
  match savedPreference with
  | Some saved =>
      if negb (is_empty saved)
      then modify (fun s => set_preferenceSelect (set_select_value saved (preferenceSelect s)) s)
      else mret tt
  | None => mret tt
  end.

(** *** The [submit] listener of the form (lines 148-176) *)

(** The [catch] block (lines 170-171) *)
Definition report_failure (error : exn) : M unit :=
  console_log ("Failed to fetch recommendations: " +:+ err_message error);;
  displayError (if is_empty (err_message error)
                then "An unknown error occurred."
                else err_message error).

(** The [finally] block (lines 173-174) *)
Definition restore_controls : M unit :=
  modify (set_loadingDiv_display "none");;
  modify (set_submitButton_disabled false).

Definition on_submit : M unit :=
  destination ← gets (fun s => trim (destinationInput_value s));
  preference ← gets (fun s => selected (preferenceSelect s));
  if is_empty destination then
    displayError "Please enter a destination city."
  else
    clearResults;;
    modify (set_resultsArea_display "block");;
    modify (set_loadingDiv_display "flex");;
    modify (set_submitButton_disabled true);;
    try_finally
      (try_catch
         (data ← fetchRecommendations destination preference;
          displayResults data)
         report_failure)
      restore_controls.

(** The [change] listener of the preference control is [savePreference], and
    the [DOMContentLoaded] listener is [loadPreference]. *)

(** ** Running a task *)

(** A run in which nothing else touches the page: every [await] resumes in
    the state it left, [fetch] settles as the network [net] decides, and
    [response.json()] settles as the response says. *)
Fixpoint run {A : Type} (net : string -> fetch_outcome) (t : task A) : result A * state :=
  match t with
  | Settled r s => (r, s)
  | AwaitFetch s url k => run net (k (net url) s)
  | AwaitJson s r k => run net (k (json r) s)
  end.

(** The URLs handed to [fetch] during that run, in order. *)
Fixpoint requests {A : Type} (net : string -> fetch_outcome) (t : task A) : list string :=
  match t with
  | Settled _ _ => []
  | AwaitFetch s url k => url :: requests net (k (net url) s)
  | AwaitJson s r k => requests net (k (json r) s)
  end.

(** The states in which the page is left at each [await] of that run. *)
Fixpoint suspended {A : Type} (net : string -> fetch_outcome) (t : task A) : list state :=
  match t with
  | Settled _ _ => []
  | AwaitFetch s url k => s :: suspended net (k (net url) s)
  | AwaitJson s r k => s :: suspended net (k (json r) s)
  end.

(** [settles Q t]: however the awaited promises settle and whatever state
    the task finds when it resumes, it settles, and [Q] holds then. *)
Inductive settles {A : Type} (Q : result A -> state -> Prop) : task A -> Prop :=
| settles_now r s : Q r s -> settles Q (Settled r s)
| settles_fetch s url k :
    (forall o s', settles Q (k o s')) -> settles Q (AwaitFetch s url k)
| settles_json s r k :
    (forall o s', settles Q (k o s')) -> settles Q (AwaitJson s r k).

(** ** Well-formed payloads

    The response body that the gateway documents: every part of it may be
    missing except the fields of a recommendation other than its source. *)

Record Origin := mkOrigin {
  origin_ip_address : option string;
  origin_city : option string
}.

Record Recommendation := mkRecommendation {
  rec_mode : string;
  rec_duration_minutes : number;
  rec_cost_usd : number;
  rec_environmental_impact_co2_kg : number;
  rec_source_cloud : option string
}.

Record RouteResponse := mkRouteResponse {
  rr_origin : option Origin;
  rr_notes : option (list string);
  rr_recommendations : option (list Recommendation)
}.

(** An object property that is written only when there is a value. *)
Definition with_field (name : string) (v : option value) (fields : gmap string value)
  : gmap string value :=
  match v with
  | Some x => <[name := x]> fields
  | None => fields
  end.

Definition value_of_Origin (o : Origin) : value :=
  VObj (with_field "ip_address" (VStr <$> origin_ip_address o)
       (with_field "city" (VStr <$> origin_city o) ∅)).

Definition value_of_Recommendation (r : Recommendation) : value :=
  VObj (<["mode" := VStr (rec_mode r)]>
       (<["duration_minutes" := VNum (rec_duration_minutes r)]>
       (<["cost_usd" := VNum (rec_cost_usd r)]>
       (<["environmental_impact_co2_kg" := VNum (rec_environmental_impact_co2_kg r)]>
       (with_field "source_cloud" (VStr <$> rec_source_cloud r) ∅))))).

(** A body with a well-formed origin and notes around any recommendations. *)
Definition response_object (origin : option Origin) (notes : option (list string))
    (recommendations : option value) : value :=
  VObj (with_field "origin" (value_of_Origin <$> origin)
       (with_field "notes" ((fun l => VArr (map VStr l)) <$> notes)
       (with_field "recommendations" recommendations ∅))).

Definition value_of_RouteResponse (r : RouteResponse) : value :=
  response_object (rr_origin r) (rr_notes r)
    ((fun l => VArr (map value_of_Recommendation l)) <$> rr_recommendations r).

Definition is_number (v : value) : bool :=
  match v with
  | VNum _ => true
  | _ => false
  end.

(** An entry that cannot be rendered. *)
Definition raises (rec : value) : Prop :=
  exists e, render_recommendation rec = Throw e.

(** ** What the page is expected to show *)

Definition not_available : string := "<p>Origin information not available.</p>".

(** The origin banner for a payload whose origin may be missing. *)
Definition expected_origin_markup (origin : option Origin) : string :=
  match origin with
  | Some o =>
      match origin_city o with
      | Some city =>
          if is_empty city then not_available
          else "<p><strong>Detected Origin:</strong> " +:+ city +:+ "</p>"
      | None => not_available
      end
  | None => not_available
  end.

(** The notes region: one paragraph per note and revealed when there is a
    note, hidden otherwise. *)
Definition expected_notes (notes : option (list string)) (s : state) : state :=
  match notes with
  | Some (n :: l) =>
      set_notesInfoDiv_display "block"
        (set_notesInfoDiv_innerHTML
           (join EmptyString (map (fun note => "<p>" +:+ note +:+ "</p>") (n :: l))) s)
  | Some [] | None => set_notesInfoDiv_display "none" s
  end.

(** Six modes have an icon. *)
Definition expected_icon (mode : string) : string :=
  if String.eqb mode "car" then "🚗"
  else if String.eqb mode "bus" then "🚌"
  else if String.eqb mode "train" then "🚆"
  else if String.eqb mode "bicycle" then "🚲"
  else if String.eqb mode "walking" then "🚶"
  else if String.eqb mode "scooter" then "🛴"
  else EmptyString.

Definition expected_source (source_cloud : option string) : string :=
  match source_cloud with
  | Some label => if is_empty label then "Unknown Cloud" else label
  | None => "Unknown Cloud"
  end.

Definition expected_markup (r : Recommendation) : string :=
  li_template (expected_icon (rec_mode r)) (rec_mode r)
    (Number_toString (rec_duration_minutes r))
    (Number_toFixed2 (rec_cost_usd r))
    (Number_toFixed2 (rec_environmental_impact_co2_kg r))
    (expected_source (rec_source_cloud r)).

Definition expected_entry (r : Recommendation) : node := Li (expected_markup r).

Definition no_recommendations : node :=
  Markup "<li>No recommendations found matching your criteria.</li>".

Definition expected_list (recs : option (list Recommendation)) : list node :=
  match recs with
  | Some (r :: l) => map expected_entry (r :: l)
  | Some [] | None => [no_recommendations]
  end.

(** The page after a well-formed payload has been rendered. *)
Definition rendered (r : RouteResponse) (s : state) : state :=
  set_recommendationList (expected_list (rr_recommendations r))
    (expected_notes (rr_notes r)
       (set_originInfoDiv_innerHTML (expected_origin_markup (rr_origin r)) s)).

(** ** Error bodies

    The body that the gateway documents for a failure: an [error] or a
    [details] text, or a body that does not parse. *)
Record ErrorBody := mkErrorBody {
  eb_error : option string;
  eb_details : option string
}.

Definition value_of_ErrorBody (b : ErrorBody) : value :=
  VObj (with_field "error" (VStr <$> eb_error b)
       (with_field "details" (VStr <$> eb_details b) ∅)).

Inductive error_body : Type :=
| Parsed (b : ErrorBody)
| Unparseable (e : exn).

Definition json_of_error_body (b : error_body) : result value :=
  match b with
  | Parsed b => Ok (value_of_ErrorBody b)
  | Unparseable e => Throw e
  end.

Definition status_message (n : nat) : string :=
  "Server responded with status: " +:+ string_of_nat n.

Definition nonempty (field : option string) : option string :=
  match field with
  | Some text => if is_empty text then None else Some text
  | None => None
  end.

(** The message of the failure: the first of [error] and [details] that is
    there and not empty, else the status line. *)
Definition expected_message (n : nat) (b : error_body) : string :=
  match b with
  | Parsed b =>
      match nonempty (eb_error b), nonempty (eb_details b) with
      | Some text, _ => text
      | None, Some text => text
      | None, None => status_message n
      end
  | Unparseable _ => status_message n
  end.

(** ** Requests *)

(** The URL of the request for a destination and a preference. *)
Definition route_url (destination preference : string) : string :=
  "/api/route?destination=" +:+ encodeURIComponent destination
  +:+ "&preference=" +:+ encodeURIComponent preference.

(** The text before the first [c] and the text after it, if [c] occurs. *)
Fixpoint cut (c : ascii) (s : string) : string * option string :=
  match s with
  | EmptyString => (EmptyString, None)
  | String a r =>
      if Ascii.eqb a c then (EmptyString, Some r)
      else let '(before, after) := cut c r in (String a before, after)
  end.

Fixpoint split_on (c : ascii) (s : string) : list string :=
  match s with
  | EmptyString => [EmptyString]
  | String a r =>
      if Ascii.eqb a c then EmptyString :: split_on c r
      else match split_on c r with
           | [] => [String a EmptyString]
           | x :: l => String a x :: l
           end
  end.

(** The parameters of the query string of a URL: [name=value] pairs
    separated by [&] after the first [?]. *)
Definition parameters (url : string) : list (string * string) :=
  match snd (cut "?" url) with
  | None => []
  | Some query =>
      map (fun pair => let '(name, v) := cut "=" pair in (name, default EmptyString v))
          (split_on "&" query)
  end.

Definition hex_value (c : ascii) : nat :=
  let n := nat_of_ascii c in
  if ((48 <=? n) && (n <=? 57))%nat then (n - 48)%nat
  else if ((65 <=? n) && (n <=? 70))%nat then (n - 55)%nat
  else if ((97 <=? n) && (n <=? 102))%nat then (n - 87)%nat
  else 0%nat.

(** The text that a [%XX]-escaped parameter stands for. *)
Fixpoint percent_decode (s : string) : string :=
  match s with
  | EmptyString => EmptyString
  | String "%" (String h1 (String h2 r)) =>
      String (ascii_of_nat (16 * hex_value h1 + hex_value h2)) (percent_decode r)
  | String c r => String c (percent_decode r)
  end.

(** ** The display regions and what they depend on *)

(** The contents of the result regions and of the error line. *)
Definition regions (s : state) : string * string * list node * string * string :=
  (originInfoDiv_innerHTML s, notesInfoDiv_innerHTML s, recommendationList s,
   errorDiv_textContent s, errorDiv_display s).

Definition cleared_regions : string * string * list node * string * string :=
  (EmptyString, EmptyString, [], EmptyString, "none").

Definition same_regions (s1 s2 : state) : Prop := regions s1 = regions s2.

(** Two runs of the same code, from states related by [R], that stay
    related at every [await] however they are resumed. *)
Inductive task_sim {A : Type} (R : state -> state -> Prop) : task A -> task A -> Prop :=
| sim_settled r s1 s2 :
    R s1 s2 -> task_sim R (Settled r s1) (Settled r s2)
| sim_fetch s1 s2 url k1 k2 :
    R s1 s2 ->
    (forall o s1' s2', R s1' s2' -> task_sim R (k1 o s1') (k2 o s2')) ->
    task_sim R (AwaitFetch s1 url k1) (AwaitFetch s2 url k2)
| sim_json s1 s2 r k1 k2 :
    R s1 s2 ->
    (forall o s1' s2', R s1' s2' -> task_sim R (k1 o s1') (k2 o s2')) ->
    task_sim R (AwaitJson s1 r k1) (AwaitJson s2 r k2).

Definition respects {A : Type} (R : state -> state -> Prop) (m : M A) : Prop :=
  forall s1 s2, R s1 s2 -> task_sim R (m s1) (m s2).

(** Code without an [await]. *)
Definition sync {A : Type} (m : M A) : Prop :=
  forall s, exists r s', m s = Settled r s'.

(** The page when the loading state is entered (lines 160-163). *)
Definition loading (s : state) : state :=
  set_submitButton_disabled true
    (set_loadingDiv_display "flex"
       (set_resultsArea_display "block"
          (set_resultsArea_display "none"
             (set_errorDiv_display "none"
                (set_errorDiv_textContent EmptyString
                   (set_notesInfoDiv_innerHTML EmptyString
                      (set_originInfoDiv_innerHTML EmptyString
                         (set_recommendationList [] s)))))))).

(** The page when the listener returns: the loading indicator is hidden
    and the button enabled. *)
Definition restored (s : state) : state :=
  set_submitButton_disabled false (set_loadingDiv_display "none" s).

(** The page after [displayError]. *)
Definition with_error (message : string) (s : state) : state :=
  set_errorDiv_display "block" (set_errorDiv_textContent ("Error: " +:+ message) s).

(** After a failed request the console has the warning only when the body
    did not parse. *)
Definition after_failure (b : error_body) (s : state) : state :=
  match b with
  | Parsed _ => s
  | Unparseable _ =>
      set_console (console s ++ ["Could not parse error response body as JSON."]) s
  end.

(** A reload: the page is as its document [fresh] defines it, and the
    storage is what the last visit [s] left. *)
Definition reload (fresh s : state) : state := set_localStorage (localStorage s) fresh.

End Script.

(** ** Amounts in hundredths: an instance of [Numbers]

    The numbers that a JSON text writes with at most two decimals and fewer
    than fifteen digits, such as [120], [25.5] and [15.75], held as a count
    of hundredths; [None] is [NaN]. On the doubles nearest to these,
    [Number::toString] prints that decimal and [toFixed(2)] pads it to two
    decimals. Numeric strings that are not such amounts are outside the
    instance and read as [NaN]. *)
Module Cents.

Definition two_digits (n : nat) : string :=
  string_of_nat (n / 10) +:+ string_of_nat (n mod 10).

Definition sign (c : Z) : string := if (c <? 0)%Z then "-" else EmptyString.

Definition fixed2 (x : option Z) : string :=
  match x with
  | None => "NaN"
  | Some c =>
      let a := Z.abs_nat c in
      sign c +:+ string_of_nat (a / 100) +:+ "." +:+ two_digits (a mod 100)
  end.

Definition shortest (x : option Z) : string :=
  match x with
  | None => "NaN"
  | Some c =>
      let a := Z.abs_nat c in
      let f := (a mod 100)%nat in
      sign c +:+ string_of_nat (a / 100)
      +:+ (if (f =? 0)%nat then EmptyString
           else if (f mod 10 =? 0)%nat then "." +:+ string_of_nat (f / 10)
           else "." +:+ two_digits f)
  end.

Definition digit (c : ascii) : option nat :=
  let n := nat_of_ascii c in
  if ((48 <=? n) && (n <=? 57))%nat then Some (n - 48)%nat else None.

(** Digits before the point, then at most two after it. *)
Fixpoint fraction (s : string) (scale : nat) (acc : nat) : option nat :=
  match s, scale with
  | EmptyString, _ => Some (acc * scale)%nat
  | String c r, 100%nat => d ← digit c; fraction r 10 (acc * 10 + d)
  | String c r, 10%nat => d ← digit c; fraction r 1 (acc * 10 + d)
  | String _ _, _ => None
  end.

Fixpoint integer (s : string) (acc : nat) : option nat :=
  match s with
  | EmptyString => Some (acc * 100)%nat
  | String "." r => fraction r 100 acc
  | String c r => d ← digit c; integer r (acc * 10 + d)
  end.

Definition parse (s : string) : option Z :=
  match trim s with
  | EmptyString => Some 0%Z
  | String "-" r => if is_empty r then None else (fun n => (- Z.of_nat n)%Z) <$> integer r 0
  | String "+" r => if is_empty r then None else Z.of_nat <$> integer r 0
  | String "." EmptyString => None
  | t => Z.of_nat <$> integer t 0
  end.

#[export] Instance numbers : Numbers := {|
  number := option Z;
  Number_toString := shortest;
  Number_toFixed2 := fixed2;
  Number_ToBoolean := fun x => match x with Some c => negb (c =? 0)%Z | None => false end;
  Number_positive := fun x => match x with Some c => (0 <? c)%Z | None => false end;
  StringToNumber := parse
|}.

End Cents.

(** ** Sample pages, payloads and gateways *)
Module Samples.
Import Cents.

(** The page before the first submit, with the three preferences of the
    form and nothing shown. *)
Definition page : state :=
  {| destinationInput_value := EmptyString;
     preferenceSelect := mkSelect ["fastest"; "cheapest"; "greenest"] "fastest";
     submitButton_disabled := false;
     resultsArea_display := "none";
     originInfoDiv_innerHTML := EmptyString;
     notesInfoDiv_innerHTML := EmptyString;
     notesInfoDiv_display := "none";
     recommendationList := [];
     loadingDiv_display := "none";
     errorDiv_textContent := EmptyString;
     errorDiv_display := "none";
     localStorage := ∅;
     console := [] |}.

(** The user types a destination. *)
Definition typed (destination : string) (s : state) : state :=
  set_destinationInput_value destination s.

(** One car trip from Paris: 120 minutes, 25.50 dollars, 15.75 kg. *)
Definition paris : RouteResponse :=
  {| rr_origin := Some (mkOrigin None (Some "Paris"));
     rr_notes := Some [];
     rr_recommendations :=
       Some [mkRecommendation "car" (Some 12000%Z) (Some 2550%Z) (Some 1575%Z) (Some "GCP")] |}.

(** A recommendation without [cost_usd]. *)
Definition missing_cost : value :=
  VObj (<["recommendations" :=
            VArr [VObj (<["mode" := VStr "car"]>
                       (<["duration_minutes" := VNum (Some 12000%Z)]> ∅))]]> ∅).

(** An origin whose city is the empty string. *)
Definition empty_city : RouteResponse :=
  {| rr_origin := Some (mkOrigin None (Some EmptyString));
     rr_notes := None;
     rr_recommendations := None |}.

(** An error body whose [error] is the empty string. *)
Definition empty_error : ErrorBody :=
  {| eb_error := Some EmptyString; eb_details := Some "route service down" |}.

Definition backend_unavailable : ErrorBody :=
  {| eb_error := Some "backend unavailable"; eb_details := None |}.

Definition syntax_error : exn :=
  {| err_name := "SyntaxError"; err_message := "Unexpected token < in JSON";
     err_status := None |}.

(** A gateway that answers every request alike. *)
Definition answers (code : nat) (body : result value) : string -> fetch_outcome :=
  fun _ => Resolved (mkResponse code body).

Definition offline : string -> fetch_outcome :=
  fun _ => Rejected (TypeError "Failed to fetch").

(** The page after a trip to Paris was found and shown. *)
Definition shown : state :=
  snd (run (answers 200 (Ok (value_of_RouteResponse paris))) (on_submit (typed "Paris" page))).

End Samples.

(** ** Further sample pages and payloads *)
Module Cases.
Import Cents.
Import Samples.

Definition car : Recommendation :=
  mkRecommendation "car" (Some 12000%Z) (Some 2550%Z) (Some 1575%Z) (Some "GCP").

(** An entry with a mode and a duration only. *)
Definition no_cost : value :=
  VObj (<["mode" := VStr "train"]> (<["duration_minutes" := VNum (Some 9000%Z)]> ∅)).

(** An entry with a cost and a CO2 impact only. *)
Definition numbers_only : gmap string value :=
  <["cost_usd" := VNum (Some 3500%Z)]>
    (<["environmental_impact_co2_kg" := VNum (Some 520%Z)]> ∅).

(** A car, then an entry without cost, then nothing. *)
Definition broken_list : value :=
  response_object (Some (mkOrigin None (Some "Paris"))) None
    (Some (VArr (map value_of_Recommendation [car] ++ no_cost :: []))).

(** The exception that the entry without cost raises. *)
Definition no_toFixed : exn :=
  TypeError "Cannot read properties of undefined (reading 'toFixed')".

(** A page whose storage holds a preference that the form does not offer. *)
Definition stored_scenic : state :=
  set_localStorage (<[PREFERENCE_STORAGE_KEY := "scenic"]> ∅) page.

End Cases.

(** ** Destinations and modes *)

(** The modes for which lines 86-91 have an icon. *)
Definition known_modes : list string :=
  ["car"; "bus"; "train"; "bicycle"; "walking"; "scooter"].

(** Tabs, line breaks and spaces only. *)
Fixpoint blank (s : string) : bool :=
  match s with
  | EmptyString => true
  | String c r => ws1 c && blank r
  end.

(** A printable ASCII character that is not the space. *)
Definition visible (c : ascii) : bool :=
  let n := nat_of_ascii c in
  ((33 <=? n) && (n <=? 126))%nat.

Fixpoint has_visible (s : string) : bool :=
  match s with
  | EmptyString => false
  | String c r => visible c || has_visible r
  end.

(** ** What code leaves alone *)

(** Two pages on which [f] reads [x]. *)
Definition keeps {X : Type} (f : state -> X) (x : X) : state -> state -> Prop :=
  fun s1 s2 => f s1 = x /\ f s2 = x.

(** What the user entered and what is stored. *)
Definition form_inputs (s : state) : string * select * gmap string string :=
  (destinationInput_value s, preferenceSelect s, localStorage s).

(** Everything but the origin banner, the notes region and the list. *)
Definition outside_results (s : state)
  : string * select * bool * string * string * string * string
    * gmap string string * list string :=
  (destinationInput_value s, preferenceSelect s, submitButton_disabled s,
   resultsArea_display s, loadingDiv_display s, errorDiv_textContent s,
   errorDiv_display s, localStorage s, console s).

(** The text that the [catch] block hands to [displayError]. *)
Definition shown_message (e : exn) : string :=
  if is_empty (err_message e) then "An unknown error occurred." else err_message e.

(** The line that the [catch] block writes to the console. *)
Definition failure_line (e : exn) : string :=
  "Failed to fetch recommendations: " +:+ err_message e.

(** * Properties *)

(** ** Query strings *)

Lemma append_nil s : EmptyString +:+ s = s.
Proof. reflexivity. Qed.

Lemma append_cons c a b : String c a +:+ b = String c (a +:+ b).
Proof. reflexivity. Qed.

Lemma split_on_None c s : snd (cut c s) = None -> split_on c s = [s].
Proof.
  induction s as [|x s IH]; simpl; [done|].
  destruct (Ascii.eqb x c); [done|].
  destruct (cut c s) as [before after]. simpl. intros ->.
  by rewrite IH.
Qed.

Lemma split_on_append c a b :
  snd (cut c a) = None -> split_on c (a +:+ String c b) = a :: split_on c b.
Proof.
  induction a as [|x a IH]; simpl.
  - by rewrite Ascii.eqb_refl.
  - destruct (Ascii.eqb x c); [done|].
    destruct (cut c a) as [before after]. simpl. intros ->.
    by rewrite IH.
Qed.

Lemma cut_cons_ne c x s :
  Ascii.eqb x c = false -> snd (cut c (String x s)) = snd (cut c s).
Proof. intros E. simpl. rewrite E. by destruct (cut c s). Qed.

Lemma hex_digit_not_ampersand n : (n < 16)%nat -> Ascii.eqb (hex_digit n) "&" = false.
Proof. intros Hn. do 16 (destruct n as [|n]; [by vm_compute|]). lia. Qed.

Lemma hex_value_hex_digit n : (n < 16)%nat -> hex_value (hex_digit n) = n.
Proof. intros Hn. do 16 (destruct n as [|n]; [by vm_compute|]). lia. Qed.

Lemma nibbles x :
  (nat_of_ascii x / 16 < 16)%nat /\ (nat_of_ascii x mod 16 < 16)%nat.
Proof.
  pose proof (nat_ascii_bounded x). split.
  - apply Nat.Div0.div_lt_upper_bound. lia.
  - apply Nat.mod_upper_bound. lia.
Qed.

(** An escape is a percent sign and two hexadecimal digits, none of which
    is an ampersand. *)
Lemma percent_escape_no_ampersand x s :
  snd (cut "&" (percent_escape x +:+ s)) = snd (cut "&" s).
Proof.
  destruct (nibbles x) as [Hhi Hlo].
  unfold percent_escape. rewrite !append_cons, append_nil.
  rewrite !cut_cons_ne; [done|by apply hex_digit_not_ampersand..|done].
Qed.

Lemma uri_unreserved_not_ampersand x : uri_unreserved x = true -> Ascii.eqb x "&" = false.
Proof. destruct (Ascii.eqb_spec x "&") as [->|]; [by vm_compute|done]. Qed.

Lemma encodeURIComponent_no_ampersand s : snd (cut "&" (encodeURIComponent s)) = None.
Proof.
  induction s as [|x s IH]; [done|].
  cbn [encodeURIComponent]. destruct (uri_unreserved x) eqn:E.
  - by rewrite cut_cons_ne by by apply uri_unreserved_not_ampersand.
  - by rewrite percent_escape_no_ampersand.
Qed.

Lemma no_ampersand_parameter name v :
  snd (cut "&" name) = None -> snd (cut "&" (name +:+ "=" +:+ encodeURIComponent v)) = None.
Proof.
  induction name as [|x name IH]; rewrite ?append_cons, ?append_nil.
  - intros _. rewrite cut_cons_ne by done. apply encodeURIComponent_no_ampersand.
  - simpl. destruct (Ascii.eqb x "&"); [done|].
    destruct (cut "&" name) as [before after]. simpl. intros ->.
    specialize (IH eq_refl). by destruct (cut "&" (name +:+ _)) as [before' after'], IH.
Qed.

Lemma cut_route query : cut "?" ("/api/route?" +:+ query) = ("/api/route", Some query).
Proof. reflexivity. Qed.

Lemma parameters_route_url d p :
  parameters (route_url d p)
  = [("destination", encodeURIComponent d); ("preference", encodeURIComponent p)].
Proof.
  change (route_url d p)
    with ("/api/route?" +:+ (("destination" +:+ "=" +:+ encodeURIComponent d)
                             +:+ String "&" ("preference" +:+ "=" +:+ encodeURIComponent p))).
  unfold parameters. rewrite cut_route.
  cbn [snd].
  rewrite split_on_append by by apply no_ampersand_parameter.
  rewrite split_on_None by by apply no_ampersand_parameter.
  reflexivity.
Qed.

(** Unescaping gives the text back. *)
Lemma percent_decode_escape x s :
  percent_decode (percent_escape x +:+ s) = String x (percent_decode s).
Proof.
  destruct (nibbles x) as [Hhi Hlo].
  unfold percent_escape. rewrite !append_cons, append_nil. cbn [percent_decode].
  rewrite !hex_value_hex_digit by done.
  by rewrite <- Nat.div_mod_eq, ascii_nat_embedding.
Qed.

Lemma percent_decode_cons_ne x s :
  x <> "%"%char -> percent_decode (String x s) = String x (percent_decode s).
Proof.
  intros Hx. destruct x as [[] [] [] [] [] [] [] []]; try done.
Qed.

Lemma percent_decode_encodeURIComponent s : percent_decode (encodeURIComponent s) = s.
Proof.
  induction s as [|x s IH]; [done|].
  cbn [encodeURIComponent]. destruct (uri_unreserved x) eqn:E.
  - destruct (Ascii.eqb_spec x "%") as [->|Hx]; [by vm_compute in E|].
    rewrite percent_decode_cons_ne by done. by rewrite IH.
  - by rewrite percent_decode_escape, IH.
Qed.

Arguments forEach : simpl never.
Arguments map_join : simpl never.
Arguments ok : simpl never.
Arguments displayResults : simpl never.
Arguments report_failure : simpl never.
Arguments fetchRecommendations : simpl never.

Section Properties.
Context `{Numbers}.

(** ** Property lookups on well-formed payloads *)

Lemma lookup_with_field_eq name v (fields : gmap string value) :
  with_field name v fields !! name
  = match v with Some x => Some x | None => fields !! name end.
Proof. destruct v; simpl; [by rewrite lookup_insert_eq | done]. Qed.

Lemma lookup_with_field_ne name name' v (fields : gmap string value) :
  name ≠ name' -> with_field name v fields !! name' = fields !! name'.
Proof. intros. destruct v; simpl; [by rewrite lookup_insert_ne | done]. Qed.

Ltac lookups :=
  repeat first
    [ rewrite lookup_with_field_eq
    | rewrite lookup_with_field_ne by done
    | rewrite lookup_insert_eq
    | rewrite lookup_insert_ne by done
    | rewrite lookup_delete_eq
    | rewrite lookup_delete_ne by done
    | rewrite lookup_empty ].

(** Unfolds the binds of [M] at the head of a goal [m s = _]. *)
Ltac run_M := unfold mbind, M_bind, lift; simpl task_bind.

Lemma render_recommendation_well_formed r :
  render_recommendation (value_of_Recommendation r)
  = Ok (expected_markup r).
Proof.
  unfold render_recommendation, value_of_Recommendation, expected_markup, Get.
  lookups. simpl.
  destruct (rec_source_cloud r) as [[|c label]|]; reflexivity.
Qed.

Lemma map_strings_notes (l : list string) :
  map_strings render_note (map VStr l) = Ok (map (fun n => "<p>" +:+ n +:+ "</p>") l).
Proof.
  induction l as [|n l IH]; [done|].
  simpl. by rewrite IH.
Qed.

Lemma map_join_notes (l : list string) :
  map_join (VArr (map VStr l)) render_note
  = Ok (join EmptyString (map (fun n => "<p>" +:+ n +:+ "</p>") l)).
Proof. unfold map_join. by rewrite map_strings_notes. Qed.

Lemma forEach_nil {A : Type} (f : A -> M unit) s : forEach [] f s = Settled (Ok tt) s.
Proof. reflexivity. Qed.

Lemma forEach_cons {A : Type} (x : A) l (f : A -> M unit) s :
  forEach (x :: l) f s = task_bind (fun _ => forEach l f) (f x s).
Proof. reflexivity. Qed.

Lemma append_recommendation_well_formed r s :
  append_recommendation (value_of_Recommendation r) s
  = Settled (Ok tt) (recommendationList_appendChild (expected_entry r) s).
Proof.
  unfold append_recommendation. run_M.
  by rewrite render_recommendation_well_formed.
Qed.

Lemma forEach_recommendations (l : list Recommendation) s :
  forEach (map value_of_Recommendation l) append_recommendation s
  = Settled (Ok tt) (set_recommendationList (recommendationList s ++ map expected_entry l) s).
Proof.
  revert s. induction l as [|r l IH]; intros s.
  - cbn [map]. rewrite forEach_nil, app_nil_r. by destruct s.
  - cbn [map]. rewrite forEach_cons, append_recommendation_well_formed.
    simpl task_bind. rewrite IH. simpl.
    by rewrite <- app_assoc.
Qed.

Lemma display_origin_object origin notes recs s :
  display_origin (response_object origin notes recs) s
  = Settled (Ok tt) (set_originInfoDiv_innerHTML (expected_origin_markup origin) s).
Proof.
  unfold display_origin, response_object, Get. run_M. lookups.
  destruct origin as [[ip [c|]]|]; simpl; lookups; simpl; try done.
  by destruct c.
Qed.

Lemma display_notes_object origin notes recs s :
  display_notes (response_object origin notes recs) s
  = Settled (Ok tt) (expected_notes notes s).
Proof.
  unfold display_notes, response_object, Get. run_M. lookups.
  destruct notes as [[|n l]|]; simpl; try done.
  change (VStr n :: map VStr l) with (map VStr (n :: l)).
  by rewrite map_join_notes.
Qed.

Lemma display_recommendations_object origin notes recs s :
  display_recommendations
    (response_object origin notes ((fun l => VArr (map value_of_Recommendation l)) <$> recs)) s
  = Settled (Ok tt) (set_recommendationList (expected_list recs) s).
Proof.
  unfold display_recommendations, response_object, Get. run_M. lookups.
  destruct recs as [[|x l]|]; simpl task_bind; try done.
  run_M.
  change (value_of_Recommendation x :: map value_of_Recommendation l)
    with (map value_of_Recommendation (x :: l)).
  by rewrite forEach_recommendations.
Qed.

Lemma displayResults_well_formed r s :
  displayResults (value_of_RouteResponse r) s = Settled (Ok tt) (rendered r s).
Proof.
  unfold displayResults, value_of_RouteResponse. run_M.
  rewrite display_origin_object. simpl task_bind.
  rewrite display_notes_object. simpl task_bind.
  by rewrite display_recommendations_object.
Qed.

(** *** Entries that cannot be rendered *)

Lemma toFixed2_not_number v : is_number v = false -> exists e, toFixed2 v = Throw e.
Proof. destruct v; simpl; try done; eauto. Qed.

Lemma render_recommendation_raises fields :
  is_number (default VUndefined (fields !! "cost_usd")) = false
  \/ is_number (default VUndefined (fields !! "environmental_impact_co2_kg")) = false ->
  raises (VObj fields).
Proof.
  intros Hbad. unfold raises, render_recommendation, Get.
  cbn [mbind result_bind].
  destruct (ToString (default VUndefined (fields !! "mode"))); [|eauto].
  destruct (ToString (default VUndefined (fields !! "duration_minutes"))); [|eauto].
  destruct (toFixed2 (default VUndefined (fields !! "cost_usd"))) eqn:Ecost; [|eauto].
  destruct (toFixed2 (default VUndefined (fields !! "environmental_impact_co2_kg")))
    eqn:Eco2; [|eauto].
  destruct Hbad as [Hbad|Hbad]; apply toFixed2_not_number in Hbad as [e He]; congruence.
Qed.

Lemma append_recommendation_eq rec s :
  append_recommendation rec s
  = match render_recommendation rec with
    | Ok html => Settled (Ok tt) (recommendationList_appendChild (Li html) s)
    | Throw e => Settled (Throw e) s
    end.
Proof. reflexivity. Qed.

Lemma forEach_raises recs s :
  Exists raises recs ->
  exists e s', forEach recs append_recommendation s = Settled (Throw e) s'.
Proof.
  intros Hbad. revert s. induction Hbad as [x l [e He]|x l Hbad IH]; intros s.
  - rewrite forEach_cons, append_recommendation_eq, He. simpl. eauto.
  - rewrite forEach_cons, append_recommendation_eq.
    destruct (render_recommendation x) as [html|e]; simpl task_bind; [apply IH|eauto].
Qed.

Lemma displayResults_raises origin notes recs s :
  Exists raises recs ->
  exists e s', displayResults (response_object origin notes (Some (VArr recs))) s
               = Settled (Throw e) s'.
Proof.
  intros Hbad. unfold displayResults. run_M.
  rewrite display_origin_object. simpl task_bind.
  rewrite display_notes_object. simpl task_bind.
  unfold display_recommendations, response_object, Get. run_M. lookups.
  destruct recs as [|x l]; [by inversion Hbad|]. simpl task_bind. run_M.
  by apply forEach_raises.
Qed.

(** ** Runs of composed tasks *)

Section Traces.
Context {A B : Type} (net : string -> fetch_outcome).

Lemma run_bind (f : A -> M B) (t : task A) :
  run net (task_bind f t)
  = match run net t with
    | (Ok a, s) => run net (f a s)
    | (Throw e, s) => (Throw e, s)
    end.
Proof. induction t as [[a|e] s| |]; simpl; auto. Qed.

Lemma requests_bind (f : A -> M B) (t : task A) :
  requests net (task_bind f t)
  = (requests net t ++ match run net t with
                      | (Ok a, s) => requests net (f a s)
                      | (Throw _, _) => []
                      end)%list.
Proof. induction t as [[a|e] s| |]; simpl; auto. by f_equal. Qed.

Lemma suspended_bind (f : A -> M B) (t : task A) :
  suspended net (task_bind f t)
  = (suspended net t ++ match run net t with
                       | (Ok a, s) => suspended net (f a s)
                       | (Throw _, _) => []
                       end)%list.
Proof. induction t as [[a|e] s| |]; simpl; auto; by f_equal. Qed.

Lemma run_catch (h : exn -> M A) (t : task A) :
  run net (task_catch h t)
  = match run net t with
    | (Ok a, s) => (Ok a, s)
    | (Throw e, s) => run net (h e s)
    end.
Proof. induction t as [[a|e] s| |]; simpl; auto. Qed.

Lemma requests_catch (h : exn -> M A) (t : task A) :
  requests net (task_catch h t)
  = (requests net t ++ match run net t with
                      | (Ok _, _) => []
                      | (Throw e, s) => requests net (h e s)
                      end)%list.
Proof. induction t as [[a|e] s| |]; simpl; auto. by f_equal. Qed.

Lemma suspended_catch (h : exn -> M A) (t : task A) :
  suspended net (task_catch h t)
  = (suspended net t ++ match run net t with
                       | (Ok _, _) => []
                       | (Throw e, s) => suspended net (h e s)
                       end)%list.
Proof. induction t as [[a|e] s| |]; simpl; auto; by f_equal. Qed.

(** A cleanup that only writes to the page. *)
Lemma run_finally (g : state -> state) (c : M unit) (t : task A) :
  (forall s, c s = Settled (Ok tt) (g s)) ->
  run net (task_finally c t) = (fst (run net t), g (snd (run net t))).
Proof. intros Hc. induction t as [r s| |]; simpl; auto. by rewrite Hc. Qed.

Lemma requests_finally (g : state -> state) (c : M unit) (t : task A) :
  (forall s, c s = Settled (Ok tt) (g s)) ->
  requests net (task_finally c t) = requests net t.
Proof. intros Hc. induction t as [r s| |]; simpl; auto; [by rewrite Hc | by f_equal]. Qed.

Lemma suspended_finally (g : state -> state) (c : M unit) (t : task A) :
  (forall s, c s = Settled (Ok tt) (g s)) ->
  suspended net (task_finally c t) = suspended net t.
Proof. intros Hc. induction t as [r s| |]; simpl; auto; [by rewrite Hc | by f_equal..]. Qed.

End Traces.

(** Whatever happens while the task waits, the cleanup has the last word. *)
Lemma settles_finally {A : Type} (Q : result A -> state -> Prop) (g : state -> state)
    (c : M unit) (t : task A) :
  (forall s, c s = Settled (Ok tt) (g s)) ->
  (forall r s, Q r (g s)) ->
  settles Q (task_finally c t).
Proof.
  intros Hc HQ. induction t as [r s|s url k IH|s r k IH]; simpl.
  - rewrite Hc. simpl. by constructor.
  - constructor. auto.
  - constructor. auto.
Qed.

(** ** Code without an await *)

Lemma sync_ret {A : Type} (a : A) : sync (mret a).
Proof. intros s. by eexists _, _. Qed.

Lemma sync_lift {A : Type} (r : result A) : sync (lift r).
Proof. intros s. by eexists _, _. Qed.

Lemma sync_modify f : sync (modify f).
Proof. intros s. by eexists _, _. Qed.

Lemma sync_bind {A B : Type} (m : M A) (f : A -> M B) :
  sync m -> (forall a, sync (f a)) -> sync (m ≫= f).
Proof.
  intros Hm Hf s. unfold mbind, M_bind.
  destruct (Hm s) as ([a|e] & s' & ->); simpl; [apply Hf | by eexists _, _].
Qed.

Lemma sync_forEach {A : Type} (l : list A) (f : A -> M unit) :
  (forall a, sync (f a)) -> sync (forEach l f).
Proof.
  intros Hf. induction l as [|x l IH]; [apply sync_ret|].
  apply (sync_bind (f x) (fun _ => forEach l f)); auto.
Qed.

Lemma sync_if {A : Type} (b : bool) (m1 m2 : M A) :
  sync m1 -> sync m2 -> sync (if b then m1 else m2).
Proof. by destruct b. Qed.

Create HintDb sync discriminated.
#[local] Hint Resolve sync_ret sync_lift sync_modify sync_forEach sync_if : sync.
#[local] Hint Extern 1 (sync (_ ≫= _)) => apply sync_bind; [|intros] : sync.

Lemma sync_display_notes data : sync (display_notes data).
Proof. unfold display_notes. auto 20 with sync. Qed.

Lemma sync_displayResults data : sync (displayResults data).
Proof.
  unfold displayResults, display_origin, display_recommendations, append_recommendation.
  auto 20 using sync_display_notes with sync.
Qed.

(** ** The recommendation client *)

Lemma fetchRecommendations_await d p s :
  exists k, fetchRecommendations d p s = AwaitFetch s (route_url d p) k
    /\ (forall e s', k (Rejected e) s' = Settled (Throw e) s')
    /\ (forall r s', ok r = true -> k (Resolved r) s' = await_json r s').
Proof.
  unfold fetchRecommendations, await_fetch. run_M.
  eexists. split; [reflexivity|]. split; [done|].
  intros r s' Hok. simpl. by rewrite Hok.
Qed.

(** Case analysis on every scrutinee that blocks the evaluation. *)
Ltac cases :=
  repeat (simpl;
          match goal with
          | |- context [match ?x with _ => _ end] => destruct x eqn:?
          end);
  simpl.

Lemma requests_fetchRecommendations net d p s :
  requests net (fetchRecommendations d p s) = [route_url d p].
Proof.
  unfold fetchRecommendations, await_fetch, try_catch, await_json, console_log, throw.
  run_M. simpl. fold (route_url d p). f_equal.
  cases; done.
Qed.

Lemma suspended_fetchRecommendations net d p s :
  Forall (eq s) (suspended net (fetchRecommendations d p s)).
Proof.
  unfold fetchRecommendations, await_fetch, try_catch, await_json, console_log, throw.
  run_M. simpl. constructor; [done|].
  cases; repeat constructor.
Qed.

Lemma run_fetchRecommendations_rejected net d p s e :
  net (route_url d p) = Rejected e ->
  run net (fetchRecommendations d p s) = (Throw e, s).
Proof.
  intros Hnet. unfold fetchRecommendations, await_fetch. run_M. simpl.
  fold (route_url d p). by rewrite Hnet.
Qed.

Lemma run_fetchRecommendations_ok net d p s r :
  net (route_url d p) = Resolved r -> ok r = true ->
  run net (fetchRecommendations d p s) = (json r, s).
Proof.
  intros Hnet Hok. unfold fetchRecommendations, await_fetch. run_M. simpl.
  fold (route_url d p). rewrite Hnet. simpl. by rewrite Hok.
Qed.

Lemma run_fetchRecommendations_failed net d p s r b :
  net (route_url d p) = Resolved r -> ok r = false -> json r = json_of_error_body b ->
  run net (fetchRecommendations d p s)
  = (Throw (set_status (status r) (new_Error (expected_message (status r) b))),
     after_failure b s).
Proof.
  intros Hnet Hok Hjson.
  unfold fetchRecommendations, await_fetch, try_catch, await_json, console_log, throw.
  run_M. simpl. fold (route_url d p). rewrite Hnet. simpl. rewrite Hok. simpl.
  rewrite Hjson.
  destruct b as [[e dt]|e]; simpl; [|done].
  unfold value_of_ErrorBody, Get. lookups. simpl.
  destruct e as [[|c e]|]; simpl; lookups; try done;
    destruct dt as [[|c' dt]|]; simpl; lookups; done.
Qed.
(** ** The submit listener *)

Lemma sync_requests {A : Type} (m : M A) net s : sync m -> requests net (m s) = [].
Proof. intros Hm. by destruct (Hm s) as (r & s' & ->). Qed.

Lemma sync_suspended {A : Type} (m : M A) net s : sync m -> suspended net (m s) = [].
Proof. intros Hm. by destruct (Hm s) as (r & s' & ->). Qed.

Lemma sync_report_failure e : sync (report_failure e).
Proof. unfold report_failure, console_log, displayError. auto with sync. Qed.

Lemma restore_controls_eq s : restore_controls s = Settled (Ok tt) (restored s).
Proof. reflexivity. Qed.

Lemma on_submit_invalid s :
  is_empty (trim (destinationInput_value s)) = true ->
  on_submit s = Settled (Ok tt) (with_error "Please enter a destination city." s).
Proof.
  intros Hd. unfold on_submit, gets. run_M. by rewrite Hd.
Qed.

(** The request and what follows it, from the loading state on. *)
Lemma on_submit_valid s :
  is_empty (trim (destinationInput_value s)) = false ->
  on_submit s
  = task_finally restore_controls
      (task_catch report_failure
         (task_bind displayResults
            (fetchRecommendations (trim (destinationInput_value s))
               (selected (preferenceSelect s)) (loading s)))).
Proof.
  intros Hd. unfold on_submit, gets. run_M. by rewrite Hd.
Qed.

Lemma requests_on_submit net s :
  is_empty (trim (destinationInput_value s)) = false ->
  requests net (on_submit s)
  = [route_url (trim (destinationInput_value s)) (selected (preferenceSelect s))].
Proof.
  intros Hd. rewrite on_submit_valid by done.
  rewrite (requests_finally net restored) by apply restore_controls_eq.
  rewrite requests_catch, requests_bind, run_bind, requests_fetchRecommendations.
  destruct (run net (fetchRecommendations _ _ (loading s))) as [[data|e] s1].
  - rewrite (sync_requests (displayResults data)) by apply sync_displayResults.
    by destruct (sync_displayResults data s1) as ([[]|e] & s2 & ->).
  - by rewrite (sync_requests (report_failure e)) by apply sync_report_failure.
Qed.

Lemma suspended_on_submit net s :
  is_empty (trim (destinationInput_value s)) = false ->
  suspended net (on_submit s)
  = suspended net (fetchRecommendations (trim (destinationInput_value s))
                     (selected (preferenceSelect s)) (loading s)).
Proof.
  intros Hd. rewrite on_submit_valid by done.
  rewrite (suspended_finally net restored) by apply restore_controls_eq.
  rewrite suspended_catch, suspended_bind, run_bind.
  destruct (run net (fetchRecommendations _ _ (loading s))) as [[data|e] s1].
  - rewrite (sync_suspended (displayResults data)) by apply sync_displayResults.
    destruct (sync_displayResults data s1) as ([[]|e] & s2 & ->); simpl;
      by rewrite !app_nil_r.
  - rewrite (sync_suspended (report_failure e)) by apply sync_report_failure.
    by rewrite !app_nil_r.
Qed.

Lemma report_failure_eq e s :
  report_failure e s
  = Settled (Ok tt)
      (with_error (if is_empty (err_message e) then "An unknown error occurred."
                   else err_message e)
         (set_console
            (console s ++ ["Failed to fetch recommendations: " +:+ err_message e]) s)).
Proof. reflexivity. Qed.

Lemma run_on_submit net s :
  is_empty (trim (destinationInput_value s)) = false ->
  exists s1, run net (on_submit s) = (Ok tt, restored s1).
Proof.
  intros Hd. rewrite on_submit_valid by done.
  rewrite (run_finally net restored) by apply restore_controls_eq.
  rewrite run_catch, run_bind.
  destruct (run net (fetchRecommendations _ _ (loading s))) as [[data|e] s1].
  - destruct (sync_displayResults data s1) as ([[]|e] & s2 & ->); simpl; eauto.
  - rewrite report_failure_eq. simpl. eauto.
Qed.

(** ** What the display depends on *)

Section Simulation.
Context (R : state -> state -> Prop).

Lemma sim_bind {A B : Type} (f : A -> M B) (t1 t2 : task A) :
  task_sim R t1 t2 -> (forall a, respects R (f a)) ->
  task_sim R (task_bind f t1) (task_bind f t2).
Proof.
  intros Ht Hf. induction Ht as [[a|e] s1 s2 HR| |]; simpl.
  - by apply Hf.
  - by constructor.
  - constructor; auto.
  - constructor; auto.
Qed.

Lemma sim_catch {A : Type} (h : exn -> M A) (t1 t2 : task A) :
  task_sim R t1 t2 -> (forall e, respects R (h e)) ->
  task_sim R (task_catch h t1) (task_catch h t2).
Proof.
  intros Ht Hh. induction Ht as [[a|e] s1 s2 HR| |]; simpl.
  - by constructor.
  - by apply Hh.
  - constructor; auto.
  - constructor; auto.
Qed.

Lemma sim_finally {A : Type} (c : M unit) (t1 t2 : task A) :
  task_sim R t1 t2 -> respects R c ->
  task_sim R (task_finally c t1) (task_finally c t2).
Proof.
  intros Ht Hc. induction Ht as [r s1 s2 HR| |]; simpl.
  - apply sim_bind; [by apply Hc|]. intros _ s1' s2' HR'. by constructor.
  - constructor; auto.
  - constructor; auto.
Qed.

Lemma respects_ret {A : Type} (a : A) : respects R (mret a).
Proof. intros s1 s2 HR. by constructor. Qed.

Lemma respects_lift {A : Type} (r : result A) : respects R (lift r).
Proof. intros s1 s2 HR. by constructor. Qed.

Lemma respects_throw {A : Type} (e : exn) : respects R (throw (A:=A) e).
Proof. intros s1 s2 HR. by constructor. Qed.

Lemma respects_modify (g : state -> state) :
  (forall s1 s2, R s1 s2 -> R (g s1) (g s2)) -> respects R (modify g).
Proof. intros Hg s1 s2 HR. constructor. by apply Hg. Qed.

Lemma respects_bind {A B : Type} (m : M A) (f : A -> M B) :
  respects R m -> (forall a, respects R (f a)) -> respects R (m ≫= f).
Proof. intros Hm Hf s1 s2 HR. apply sim_bind; auto. Qed.

Lemma respects_if {A : Type} (b : bool) (m1 m2 : M A) :
  respects R m1 -> respects R m2 -> respects R (if b then m1 else m2).
Proof. by destruct b. Qed.

Lemma respects_forEach {A : Type} (l : list A) (f : A -> M unit) :
  (forall a, respects R (f a)) -> respects R (forEach l f).
Proof.
  intros Hf. induction l as [|x l IH]; [apply respects_ret|].
  apply (respects_bind (f x) (fun _ => forEach l f)); auto.
Qed.

Lemma respects_await_fetch url : respects R (await_fetch url).
Proof.
  intros s1 s2 HR. constructor; [done|].
  intros [r|e] s1' s2' HR'; by constructor.
Qed.

Lemma respects_await_json r : respects R (await_json r).
Proof.
  intros s1 s2 HR. constructor; [done|].
  intros o s1' s2' HR'; by constructor.
Qed.

Lemma respects_try_catch {A : Type} (m : M A) (h : exn -> M A) :
  respects R m -> (forall e, respects R (h e)) -> respects R (try_catch m h).
Proof. intros Hm Hh s1 s2 HR. apply sim_catch; auto. Qed.

Lemma respects_try_finally {A : Type} (m : M A) (c : M unit) :
  respects R m -> respects R c -> respects R (try_finally m c).
Proof. intros Hm Hc s1 s2 HR. apply sim_finally; auto. Qed.

(** Related tasks end with the same result in related states. *)
Lemma run_sim {A : Type} net (t1 t2 : task A) :
  task_sim R t1 t2 ->
  fst (run net t1) = fst (run net t2) /\ R (snd (run net t1)) (snd (run net t2)).
Proof. intros Ht. induction Ht; simpl; auto. Qed.

End Simulation.

Create HintDb respects discriminated.
#[local] Hint Resolve respects_ret respects_lift respects_throw respects_forEach
  respects_if respects_await_fetch respects_await_json : respects.
#[local] Hint Extern 1 (respects _ (_ ≫= _)) => apply respects_bind; [|intros] : respects.
#[local] Hint Extern 1 (respects _ (try_catch _ _)) =>
  apply respects_try_catch; [|intros] : respects.
#[local] Hint Extern 1 (respects _ (try_finally _ _)) => apply respects_try_finally : respects.

(** Every assignment to the page keeps two pages with the same regions
    alike. *)
Ltac same_regions :=
  let HR := fresh in
  intros ? ? HR; unfold same_regions, regions in *; simpl;
  injection HR as ?; congruence.

#[local] Hint Extern 1 (respects same_regions (modify _)) =>
  apply respects_modify; same_regions : respects.

Lemma respects_displayResults data : respects same_regions (displayResults data).
Proof.
  unfold displayResults, display_origin, display_notes, display_recommendations,
    append_recommendation.
  auto 20 with respects.
Qed.

Lemma respects_report_failure e : respects same_regions (report_failure e).
Proof. unfold report_failure, console_log, displayError. auto 20 with respects. Qed.

Lemma respects_restore_controls : respects same_regions restore_controls.
Proof. unfold restore_controls. auto with respects. Qed.

Lemma respects_fetchRecommendations d p : respects same_regions (fetchRecommendations d p).
Proof. unfold fetchRecommendations, console_log. auto 20 with respects. Qed.

(** ** The result renderer *)

(** C1, as amended: for every payload of the documented shape, in which the
    origin, its city, the notes, the recommendations and the source of a
    recommendation may each be missing, [displayResults] completes without
    raising, and a missing origin, notes or recommendations degrades to the
    empty-state text; an entry whose [cost_usd] or
    [environmental_impact_co2_kg] is missing or not a number cannot be
    rendered, and a list with such an entry makes [displayResults] raise. *)
Theorem displayResults_on_entries :
  (forall r s,
     exists s',
       displayResults (value_of_RouteResponse r) s = Settled (Ok tt) s'
       /\ match rr_origin r with
          | None => originInfoDiv_innerHTML s' = "<p>Origin information not available.</p>"
          | Some _ => True
          end
       /\ match rr_notes r with
          | None => notesInfoDiv_display s' = "none"
          | Some _ => True
          end
       /\ match rr_recommendations r with
          | None =>
              recommendationList s'
              = [Markup "<li>No recommendations found matching your criteria.</li>"]
          | Some _ => True
          end)
  /\ (forall fields,
        is_number (default VUndefined (fields !! "cost_usd")) = false
        \/ is_number (default VUndefined (fields !! "environmental_impact_co2_kg")) = false ->
        exists e, render_recommendation (VObj fields) = Throw e)
  /\ (forall origin notes recs s,
        Exists (fun rec => exists e, render_recommendation rec = Throw e) recs ->
        exists e s',
          displayResults (response_object origin notes (Some (VArr recs))) s
          = Settled (Throw e) s').
Proof.
  split; [|split].
  - intros r s. exists (rendered r s). split; [apply displayResults_well_formed|].
    destruct r as [[o|] [[|n l]|] [[|x l']|]]; simpl; auto.
  - apply render_recommendation_raises.
  - apply displayResults_raises.
Qed.


(** C9, as amended: the origin banner reads "Detected Origin: <city>" when
    the origin has a city that is not the empty string, and the fixed "not
    available" text otherwise; the notes region is revealed with one
    paragraph per note when the notes are there and not empty, and hidden
    when they are missing or empty. *)
Theorem origin_and_notes_rendered r s :
  exists s',
    displayResults (value_of_RouteResponse r) s = Settled (Ok tt) s'
    /\ originInfoDiv_innerHTML s'
       = match rr_origin r with
         | Some {| origin_city := Some city |} =>
             if is_empty city then "<p>Origin information not available.</p>"
             else "<p><strong>Detected Origin:</strong> " +:+ city +:+ "</p>"
         | _ => "<p>Origin information not available.</p>"
         end
    /\ match rr_notes r with
       | Some (n :: l) =>
           notesInfoDiv_display s' = "block"
           /\ notesInfoDiv_innerHTML s'
              = join EmptyString (map (fun note => "<p>" +:+ note +:+ "</p>") (n :: l))
       | Some [] | None =>
           notesInfoDiv_display s' = "none"
           /\ notesInfoDiv_innerHTML s' = notesInfoDiv_innerHTML s
       end.
Proof.
  exists (rendered r s). split; [apply displayResults_well_formed|].
  destruct r as [[[ip [c|]]|] [[|n l]|] recs]; simpl; auto.
Qed.






(** ** The form controller *)

Lemma is_empty_true s : is_empty s = true <-> s = EmptyString.
Proof. by destruct s. Qed.

Lemma is_empty_false s : is_empty s = false <-> s <> EmptyString.
Proof. by destruct s. Qed.

Lemma suspended_fetchRecommendations_first net d p s :
  exists l, suspended net (fetchRecommendations d p s) = s :: l.
Proof.
  destruct (fetchRecommendations_await d p s) as (k & -> & _). simpl. eauto.
Qed.

(** C4: when the destination trims to the empty string, the listener makes
    no request and does not wait, and it shows the message "Please enter a
    destination city." on the error line. *)
Theorem empty_destination_rejected net s :
  trim (destinationInput_value s) = EmptyString ->
  requests net (on_submit s) = []
  /\ suspended net (on_submit s) = []
  /\ exists s',
       on_submit s = Settled (Ok tt) s'
       /\ errorDiv_textContent s' = "Error: Please enter a destination city."
       /\ errorDiv_display s' = "block".
Proof.
  intros Hd. apply is_empty_true in Hd.
  rewrite on_submit_invalid by done. eauto 10.
Qed.

(** C5: a submit that fails validation settles at once and leaves the
    button and the loading indicator as they were. Any other submit waits at
    least once; at every wait the button is disabled and the indicator
    shown; when the request has settled, as a success or as a failure, the
    button is enabled and the indicator hidden, and this holds whatever
    happens to the page while the listener waits. *)
Theorem submit_button_interval net s :
  if is_empty (trim (destinationInput_value s)) then
    exists s',
      on_submit s = Settled (Ok tt) s'
      /\ submitButton_disabled s' = submitButton_disabled s
      /\ loadingDiv_display s' = loadingDiv_display s
  else
    (exists s1 l, suspended net (on_submit s) = s1 :: l)
    /\ Forall (fun s1 => submitButton_disabled s1 = true /\ loadingDiv_display s1 = "flex")
         (suspended net (on_submit s))
    /\ submitButton_disabled (snd (run net (on_submit s))) = false
    /\ loadingDiv_display (snd (run net (on_submit s))) = "none"
    /\ settles (fun _ s' => submitButton_disabled s' = false /\ loadingDiv_display s' = "none")
         (on_submit s).
Proof.
  destruct (is_empty (trim (destinationInput_value s))) eqn:Hd.
  - rewrite on_submit_invalid by done. eauto.
  - split; [|split; [|split; [|split]]].
    + rewrite suspended_on_submit by done.
      destruct (suspended_fetchRecommendations_first net (trim (destinationInput_value s))
                  (selected (preferenceSelect s)) (loading s)) as [l ->]. eauto.
    + rewrite suspended_on_submit by done.
      eapply Forall_impl; [apply suspended_fetchRecommendations|].
      by intros s1 <-.
    + by destruct (run_on_submit net s Hd) as [s1 ->].
    + by destruct (run_on_submit net s Hd) as [s1 ->].
    + rewrite on_submit_valid by done.
      by apply (settles_finally _ restored); [apply restore_controls_eq|].
Qed.

(** C7: when the trimmed destination is not empty, one submit hands exactly
    one URL to [fetch]: the path [/api/route] with the two parameters
    [destination] and [preference] and no other, each the percent-encoding
    of the trimmed destination and of the selected preference, which
    decodes back to it. *)
Theorem one_request_two_parameters net s :
  trim (destinationInput_value s) <> EmptyString ->
  exists url query,
    requests net (on_submit s) = [url]
    /\ cut "?" url = ("/api/route", Some query)
    /\ parameters url
       = [("destination", encodeURIComponent (trim (destinationInput_value s)));
          ("preference", encodeURIComponent (selected (preferenceSelect s)))]
    /\ percent_decode (encodeURIComponent (trim (destinationInput_value s)))
       = trim (destinationInput_value s)
    /\ percent_decode (encodeURIComponent (selected (preferenceSelect s)))
       = selected (preferenceSelect s).
Proof.
  intros Hd. apply is_empty_false in Hd.
  eexists _, _. split; [by apply requests_on_submit|].
  split; [apply cut_route|].
  split; [apply parameters_route_url|].
  split; apply percent_decode_encodeURIComponent.
Qed.

Lemma expected_message_not_empty code body : is_empty (expected_message code body) = false.
Proof.
  destruct body as [[[[|c e]|] [[|c' d]|]]|e]; done.
Qed.

(** C3, as amended: for a response whose status N is not a success, whose
    body is the documented error object or does not parse,
    [fetchRecommendations] raises an error with status N whose message is
    the [error] text when it is there and not empty, else the [details] text
    when it is there and not empty, else "Server responded with status: N";
    the error line then reads "Error: " followed by that message. *)
Theorem failure_message net s code body :
  trim (destinationInput_value s) <> EmptyString ->
  net (route_url (trim (destinationInput_value s)) (selected (preferenceSelect s)))
  = Resolved (mkResponse code (json_of_error_body body)) ->
  ok (mkResponse code (json_of_error_body body)) = false ->
  fst (run net (fetchRecommendations (trim (destinationInput_value s))
                  (selected (preferenceSelect s)) s))
  = Throw {| err_name := "Error";
             err_message := expected_message code body;
             err_status := Some code |}
  /\ errorDiv_textContent (snd (run net (on_submit s)))
     = "Error: " +:+ expected_message code body
  /\ errorDiv_display (snd (run net (on_submit s))) = "block".
Proof.
  intros Hd Hnet Hok. apply is_empty_false in Hd.
  split.
  - by rewrite (run_fetchRecommendations_failed net _ _ s _ body Hnet Hok eq_refl).
  - rewrite on_submit_valid by done.
    rewrite (run_finally net restored) by apply restore_controls_eq.
    rewrite run_catch, run_bind.
    rewrite (run_fetchRecommendations_failed net _ _ _ _ body Hnet Hok eq_refl).
    rewrite report_failure_eq. simpl.
    by rewrite expected_message_not_empty.
Qed.

(** C2, as amended: on every submit that passes validation the result
    regions and the error line are cleared before anything is shown: they
    are empty at every wait, and what they hold when the request has settled
    is the same whatever they held before the submit. *)
Theorem no_stale_results net s1 s2 :
  destinationInput_value s1 = destinationInput_value s2 ->
  selected (preferenceSelect s1) = selected (preferenceSelect s2) ->
  trim (destinationInput_value s1) <> EmptyString ->
  Forall (fun s => regions s = cleared_regions) (suspended net (on_submit s1))
  /\ regions (snd (run net (on_submit s1))) = regions (snd (run net (on_submit s2))).
Proof.
  intros Hdest Hpref Hd. apply is_empty_false in Hd. split.
  - rewrite suspended_on_submit by done.
    eapply Forall_impl; [apply suspended_fetchRecommendations|].
    by intros s <-.
  - rewrite !on_submit_valid by (by rewrite <- ?Hdest).
    rewrite <- Hdest, <- Hpref.
    eapply (run_sim same_regions).
    apply sim_finally; [|apply respects_restore_controls].
    apply sim_catch; [|apply respects_report_failure].
    apply sim_bind; [|apply respects_displayResults].
    by apply respects_fetchRecommendations.
Qed.

(** ** The preference store *)

(** C6: the preference that the control holds when [savePreference] runs is
    stored under the fixed key, and after a reload [loadPreference] sets the
    control, which offers that preference, back to it; with nothing stored
    under the key, [loadPreference] leaves the page as it is. *)
Theorem preference_round_trip fresh s v :
  selected (preferenceSelect s) = v ->
  v ∈ options (preferenceSelect fresh) ->
  v <> EmptyString ->
  (exists s1 s2,
     savePreference s = Settled (Ok tt) s1
     /\ localStorage s1 !! PREFERENCE_STORAGE_KEY = Some v
     /\ loadPreference (reload fresh s1) = Settled (Ok tt) s2
     /\ selected (preferenceSelect s2) = v)
  /\ (forall s0, localStorage s0 !! PREFERENCE_STORAGE_KEY = None ->
                 loadPreference s0 = Settled (Ok tt) s0).
Proof.
  intros Hv Hin Hne. apply is_empty_false in Hne. split.
  - eexists _, _. split; [reflexivity|]. split.
    + simpl. by rewrite lookup_insert_eq, Hv.
    + unfold loadPreference, gets. run_M. simpl localStorage.
      rewrite lookup_insert_eq, Hv, Hne. simpl. split; [reflexivity|].
      simpl. by rewrite bool_decide_eq_true_2.
  - intros s0 Hnone. unfold loadPreference, gets. run_M. by rewrite Hnone.
Qed.

(** * Further properties of the script *)

(** ** What is left alone *)

Lemma respects_gets {A : Type} (R : state -> state -> Prop) (g : state -> A) :
  (forall s1 s2, R s1 s2 -> g s1 = g s2) -> respects R (gets g).
Proof. intros Hg s1 s2 HR. unfold gets. rewrite (Hg s1 s2 HR). by constructor. Qed.

(** Along a run from related states, the first run reads [x] at every wait
    and at the end. *)
Lemma run_keeps {A X : Type} (f : state -> X) (x : X) net (t1 t2 : task A) :
  task_sim (keeps f x) t1 t2 ->
  f (snd (run net t1)) = x /\ Forall (fun s => f s = x) (suspended net t1).
Proof.
  intros Ht. induction Ht as [r s1 s2 [H1 H2]|s1 s2 url k1 k2 [H1 H2] _ IH
                             |s1 s2 r k1 k2 [H1 H2] _ IH]; simpl.
  - by split.
  - destruct (IH (net url) s1 s2 (conj H1 H2)) as [Hrun Hall]. split; [done|].
    by constructor.
  - destruct (IH (json r) s1 s2 (conj H1 H2)) as [Hrun Hall]. split; [done|].
    by constructor.
Qed.

Lemma respects_keeps_run {A X : Type} (f : state -> X) (m : M A) net s :
  respects (keeps f (f s)) m ->
  f (snd (run net (m s))) = f s /\ Forall (fun s' => f s' = f s) (suspended net (m s)).
Proof. intros Hm. apply (run_keeps f (f s) net (m s) (m s)). by apply Hm. Qed.

(** An assignment that [f] does not read. *)
Ltac keeps_frame :=
  let H1 := fresh in
  let H2 := fresh in
  intros ? ? [H1 H2]; split; [exact H1|exact H2].

#[local] Hint Extern 1 (respects (keeps _ _) (modify _)) =>
  apply respects_modify; keeps_frame : respects.

Lemma keeps_displayResults x data : respects (keeps outside_results x) (displayResults data).
Proof.
  unfold displayResults, display_origin, display_notes, display_recommendations,
    append_recommendation.
  auto 20 with respects.
Qed.

(** X1: for every payload, also one that makes it raise, [displayResults]
    writes to the origin banner, the notes region and the list only: the
    inputs, the button, the loading indicator, the visibility of the results
    area, the error line, the storage and the console are as before. *)
Theorem displayResults_writes_results_only data s :
  exists r s',
    displayResults data s = Settled r s'
    /\ outside_results s' = outside_results s.
Proof.
  destruct (sync_displayResults data s) as (r & s' & E). exists r, s'. split; [done|].
  pose proof (respects_keeps_run outside_results (displayResults data)
                (fun _ => Rejected (new_Error EmptyString)) s
                (keeps_displayResults _ data)) as [Hrun _].
  by rewrite E in Hrun.
Qed.

Lemma keeps_inputs_fetchRecommendations x d p :
  respects (keeps form_inputs x) (fetchRecommendations d p).
Proof. unfold fetchRecommendations, console_log. auto 20 with respects. Qed.

Lemma keeps_inputs_displayResults x data :
  respects (keeps form_inputs x) (displayResults data).
Proof.
  unfold displayResults, display_origin, display_notes, display_recommendations,
    append_recommendation.
  auto 20 with respects.
Qed.

Lemma keeps_inputs_report_failure x e : respects (keeps form_inputs x) (report_failure e).
Proof. unfold report_failure, console_log, displayError. auto 20 with respects. Qed.

Lemma keeps_inputs_restore_controls x : respects (keeps form_inputs x) restore_controls.
Proof. unfold restore_controls. auto with respects. Qed.

(** X2: a submit, valid or not and however the request ends, leaves the
    destination field, the preference control and the storage as they were,
    at every wait and when it has settled. *)
Theorem submit_keeps_inputs_and_storage net s :
  form_inputs (snd (run net (on_submit s))) = form_inputs s
  /\ Forall (fun s' => form_inputs s' = form_inputs s) (suspended net (on_submit s)).
Proof.
  destruct (is_empty (trim (destinationInput_value s))) eqn:Hd.
  - rewrite on_submit_invalid by done. simpl. by split.
  - rewrite on_submit_valid by done.
    apply (run_keeps form_inputs (form_inputs s) net _
             (task_finally restore_controls
                (task_catch report_failure
                   (task_bind displayResults
                      (fetchRecommendations (trim (destinationInput_value s))
                         (selected (preferenceSelect s)) (loading s)))))).
    apply sim_finally; [|apply keeps_inputs_restore_controls].
    apply sim_catch; [|apply keeps_inputs_report_failure].
    apply sim_bind; [|apply keeps_inputs_displayResults].
    by apply keeps_inputs_fetchRecommendations.
Qed.

Lemma keeps_area_fetchRecommendations x d p :
  respects (keeps resultsArea_display x) (fetchRecommendations d p).
Proof. unfold fetchRecommendations, console_log. auto 20 with respects. Qed.

Lemma keeps_area_displayResults x data :
  respects (keeps resultsArea_display x) (displayResults data).
Proof.
  unfold displayResults, display_origin, display_notes, display_recommendations,
    append_recommendation.
  auto 20 with respects.
Qed.

Lemma keeps_area_report_failure x e :
  respects (keeps resultsArea_display x) (report_failure e).
Proof. unfold report_failure, console_log, displayError. auto 20 with respects. Qed.

Lemma keeps_area_restore_controls x : respects (keeps resultsArea_display x) restore_controls.
Proof. unfold restore_controls. auto with respects. Qed.

(** X3: on a submit that passes validation the results area is revealed
    before the request is made and stays revealed: its [display] is "block"
    at every wait and when the listener has settled, whatever it was before
    and however the request ends. *)
Theorem results_area_revealed net s :
  trim (destinationInput_value s) <> EmptyString ->
  resultsArea_display (snd (run net (on_submit s))) = "block"
  /\ Forall (fun s' => resultsArea_display s' = "block") (suspended net (on_submit s)).
Proof.
  intros Hd. apply is_empty_false in Hd. rewrite on_submit_valid by done.
  apply (run_keeps resultsArea_display "block" net _
           (task_finally restore_controls
              (task_catch report_failure
                 (task_bind displayResults
                    (fetchRecommendations (trim (destinationInput_value s))
                       (selected (preferenceSelect s)) (loading s)))))).
  apply sim_finally; [|apply keeps_area_restore_controls].
  apply sim_catch; [|apply keeps_area_report_failure].
  apply sim_bind; [|apply keeps_area_displayResults].
  by apply keeps_area_fetchRecommendations.
Qed.

(** ** The listener never rejects *)

Lemma settles_catch {A : Type} (Q : result A -> state -> Prop) (h : exn -> M A)
    (t : task A) :
  (forall a s, Q (Ok a) s) -> (forall e s, settles Q (h e s)) ->
  settles Q (task_catch h t).
Proof.
  intros Hok Hh. induction t as [[a|e] s| |]; simpl; auto; constructor; auto.
Qed.

Lemma settles_finally_result {A : Type} (Q : result A -> state -> Prop)
    (g : state -> state) (c : M unit) (t : task A) :
  (forall s, c s = Settled (Ok tt) (g s)) ->
  settles (fun r s => Q r (g s)) t ->
  settles Q (task_finally c t).
Proof.
  intros Hc Ht. induction Ht as [r s HQ| |]; simpl.
  - rewrite Hc. simpl. by constructor.
  - constructor. auto.
  - constructor. auto.
Qed.

(** X4: the promise of the submit listener is never rejected: whatever the
    network delivers, whatever the payload holds and whatever happens to the
    page while the listener waits, every exception is caught and the
    listener ends normally. *)
Theorem listener_never_rejects s :
  settles (fun r _ => r = Ok tt) (on_submit s).
Proof.
  destruct (is_empty (trim (destinationInput_value s))) eqn:Hd.
  - rewrite on_submit_invalid by done. by constructor.
  - rewrite on_submit_valid by done.
    apply (settles_finally_result _ restored); [apply restore_controls_eq|].
    apply settles_catch.
    + by intros [] s'.
    + intros e s'. rewrite report_failure_eq. by constructor.
Qed.

(** ** How a request ends on the page *)

Lemma run_on_submit_eq net s :
  is_empty (trim (destinationInput_value s)) = false ->
  run net (on_submit s)
  = match run net (fetchRecommendations (trim (destinationInput_value s))
                     (selected (preferenceSelect s)) (loading s)) with
    | (Ok data, s1) =>
        match run net (displayResults data s1) with
        | (Ok _, s2) => (Ok tt, restored s2)
        | (Throw e, s2) =>
            (Ok tt, restored (with_error (shown_message e)
                                (set_console (console s2 ++ [failure_line e]) s2)))
        end
    | (Throw e, s1) =>
        (Ok tt, restored (with_error (shown_message e)
                            (set_console (console s1 ++ [failure_line e]) s1)))
    end.
Proof.
  intros Hd. rewrite on_submit_valid by done.
  rewrite (run_finally net restored) by apply restore_controls_eq.
  rewrite run_catch, run_bind.
  destruct (run net (fetchRecommendations _ _ (loading s))) as [[data|e] s1].
  - destruct (run net (displayResults data s1)) as [[[]|e] s2]; [done|].
    by rewrite report_failure_eq.
  - by rewrite report_failure_eq.
Qed.

(** X5: when [fetch] rejects, or when a response with a success status has
    a body that does not parse, the listener shows "Error: " and the message
    of that exception, or "An unknown error occurred." when the message is
    empty; the origin banner, the notes and the list are empty, the console
    has one more line after those it had, and the [display] of the notes region is what it was
    before the submit. *)
Theorem transport_failure_shown net s e :
  trim (destinationInput_value s) <> EmptyString ->
  (net (route_url (trim (destinationInput_value s)) (selected (preferenceSelect s)))
   = Rejected e
   \/ exists r,
        net (route_url (trim (destinationInput_value s)) (selected (preferenceSelect s)))
        = Resolved r
        /\ ok r = true /\ json r = Throw e) ->
  let s' := snd (run net (on_submit s)) in
  errorDiv_textContent s'
  = "Error: " +:+ (if is_empty (err_message e) then "An unknown error occurred."
                   else err_message e)
  /\ errorDiv_display s' = "block"
  /\ originInfoDiv_innerHTML s' = EmptyString
  /\ notesInfoDiv_innerHTML s' = EmptyString
  /\ recommendationList s' = []
  /\ (exists line, console s' = (console s ++ [line])%list)
  /\ notesInfoDiv_display s' = notesInfoDiv_display s.
Proof.
  intros Hd Hnet s'. apply is_empty_false in Hd. subst s'.
  rewrite run_on_submit_eq by done.
  assert (run net (fetchRecommendations (trim (destinationInput_value s))
                     (selected (preferenceSelect s)) (loading s))
          = (Throw e, loading s)) as ->.
  { destruct Hnet as [Hnet|(r & Hnet & Hok & Hjson)].
    - by apply run_fetchRecommendations_rejected.
    - rewrite (run_fetchRecommendations_ok net _ _ _ r Hnet Hok). by rewrite Hjson. }
  simpl. repeat split; eauto.
Qed.

(** X6: when the gateway answers with a success status and a payload of the
    documented shape, the listener ends on the page that rendering this
    payload on the cleared page gives, with the controls restored: the
    results area is shown, the error line is empty and hidden, the banner
    and the list are those of the payload, and nothing is written to the
    console. *)
Theorem success_shown net s r payload :
  trim (destinationInput_value s) <> EmptyString ->
  net (route_url (trim (destinationInput_value s)) (selected (preferenceSelect s)))
  = Resolved r ->
  ok r = true ->
  json r = Ok (value_of_RouteResponse payload) ->
  let s' := snd (run net (on_submit s)) in
  run net (on_submit s) = (Ok tt, restored (rendered payload (loading s)))
  /\ resultsArea_display s' = "block"
  /\ errorDiv_textContent s' = EmptyString
  /\ errorDiv_display s' = "none"
  /\ originInfoDiv_innerHTML s' = expected_origin_markup (rr_origin payload)
  /\ recommendationList s' = expected_list (rr_recommendations payload)
  /\ console s' = console s.
Proof.
  intros Hd Hnet Hok Hjson s'. apply is_empty_false in Hd. subst s'.
  rewrite run_on_submit_eq by done.
  rewrite (run_fetchRecommendations_ok net _ _ _ r Hnet Hok), Hjson.
  rewrite displayResults_well_formed.
  destruct payload as [o [[|n l]|] [[|x l']|]]; by repeat split.
Qed.

Lemma forEach_until_raise good bad rest e s :
  render_recommendation bad = Throw e ->
  forEach (map value_of_Recommendation good ++ bad :: rest) append_recommendation s
  = Settled (Throw e)
      (set_recommendationList (recommendationList s ++ map expected_entry good) s).
Proof.
  intros Hbad. revert s. induction good as [|x good IH]; intros s.
  - cbn [map app]. rewrite forEach_cons, append_recommendation_eq, Hbad. simpl.
    rewrite app_nil_r. by destruct s.
  - cbn [map app]. rewrite forEach_cons, append_recommendation_well_formed.
    simpl task_bind. rewrite IH. simpl. by rewrite <- app_assoc.
Qed.

Lemma displayResults_until_raise origin notes good bad rest e s :
  render_recommendation bad = Throw e ->
  displayResults
    (response_object origin notes
       (Some (VArr (map value_of_Recommendation good ++ bad :: rest)))) s
  = Settled (Throw e)
      (set_recommendationList (map expected_entry good)
         (expected_notes notes
            (set_originInfoDiv_innerHTML (expected_origin_markup origin) s))).
Proof.
  intros Hbad. unfold displayResults. run_M.
  rewrite display_origin_object. simpl task_bind.
  rewrite display_notes_object. simpl task_bind.
  remember (map value_of_Recommendation good ++ bad :: rest)%list as elems eqn:Helems.
  assert (Hne : match elems with [] => false | _ :: _ => true end = true)
    by (subst elems; by destruct good).
  unfold display_recommendations, response_object, Get. run_M. lookups.
  simpl task_bind. rewrite Hne. run_M. subst elems.
  rewrite (forEach_until_raise good bad rest e) by done.
  simpl. by destruct notes as [[|n l]|].
Qed.

(** X7: when a payload with a success status holds an entry that cannot be
    rendered, the page ends with the new origin banner and the entries that
    come before that entry, and with "Error: " and the message of the
    exception on the error line: a part of the new result is displayed
    beside the error. *)
Theorem rendering_failure_shown net s r origin notes good bad rest e :
  trim (destinationInput_value s) <> EmptyString ->
  net (route_url (trim (destinationInput_value s)) (selected (preferenceSelect s)))
  = Resolved r ->
  ok r = true ->
  json r = Ok (response_object origin notes
                 (Some (VArr (map value_of_Recommendation good ++ bad :: rest)))) ->
  render_recommendation bad = Throw e ->
  let s' := snd (run net (on_submit s)) in
  originInfoDiv_innerHTML s' = expected_origin_markup origin
  /\ recommendationList s' = map expected_entry good
  /\ errorDiv_textContent s'
     = "Error: " +:+ (if is_empty (err_message e) then "An unknown error occurred."
                      else err_message e)
  /\ errorDiv_display s' = "block"
  /\ submitButton_disabled s' = false.
Proof.
  intros Hd Hnet Hok Hjson Hbad s'. apply is_empty_false in Hd. subst s'.
  rewrite run_on_submit_eq by done.
  rewrite (run_fetchRecommendations_ok net _ _ _ r Hnet Hok), Hjson.
  rewrite (displayResults_until_raise origin notes good bad rest e) by done.
  destruct notes as [[|n l]|]; by repeat split.
Qed.

(** X8: rendering a payload of the documented shape a second time changes
    nothing: the list is replaced, not extended. *)
Theorem displayResults_idempotent payload s :
  exists s',
    displayResults (value_of_RouteResponse payload) s = Settled (Ok tt) s'
    /\ displayResults (value_of_RouteResponse payload) s' = Settled (Ok tt) s'.
Proof.
  exists (rendered payload s). rewrite !displayResults_well_formed. split; [done|].
  f_equal. by destruct payload as [o [[|n l]|] recs].
Qed.

(** ** The preference store at its edges *)

(** X9: [savePreference] writes the entry of the fixed key and nothing
    else: every other key of the storage and the whole page are as before,
    and saving once more without a change of the control changes nothing. *)
Theorem savePreference_writes_one_key s :
  exists s',
    savePreference s = Settled (Ok tt) s'
    /\ localStorage s' !! PREFERENCE_STORAGE_KEY = Some (selected (preferenceSelect s))
    /\ (forall key, key <> PREFERENCE_STORAGE_KEY ->
                    localStorage s' !! key = localStorage s !! key)
    /\ set_localStorage (localStorage s) s' = s
    /\ savePreference s' = Settled (Ok tt) s'.
Proof.
  eexists. split; [reflexivity|]. simpl. split; [apply lookup_insert_eq|].
  split; [intros key Hkey; by apply lookup_insert_ne|].
  split; [by destruct s|].
  unfold savePreference, modify. simpl. by rewrite insert_insert_eq.
Qed.

(** X10: [loadPreference] never raises and never waits; it changes nothing
    but the selection of the preference control, whose options stay; and a
    stored empty string, like a missing entry, leaves the page as it is. *)
Theorem loadPreference_changes_selection_only s :
  exists s',
    loadPreference s = Settled (Ok tt) s'
    /\ set_preferenceSelect (preferenceSelect s) s' = s
    /\ options (preferenceSelect s') = options (preferenceSelect s)
    /\ match localStorage s !! PREFERENCE_STORAGE_KEY with
       | Some EmptyString | None => s' = s
       | Some (String _ _) => True
       end.
Proof.
  unfold loadPreference, gets. run_M.
  destruct (localStorage s !! PREFERENCE_STORAGE_KEY) as [[|c saved]|]; simpl;
    eexists; (split; [reflexivity|]); simpl; repeat split; by destruct s.
Qed.

(** X11: a stored preference that the control does not offer is not
    restored: [loadPreference] leaves the control without a selection, so
    that its value reads as the empty string. *)
Theorem loadPreference_unknown_value s saved :
  localStorage s !! PREFERENCE_STORAGE_KEY = Some saved ->
  saved <> EmptyString ->
  saved ∉ options (preferenceSelect s) ->
  exists s',
    loadPreference s = Settled (Ok tt) s'
    /\ selected (preferenceSelect s') = EmptyString.
Proof.
  intros Hsaved Hne Hout. apply is_empty_false in Hne.
  unfold loadPreference, gets. run_M. rewrite Hsaved, Hne. simpl.
  eexists. split; [reflexivity|]. simpl. by rewrite bool_decide_eq_false_2.
Qed.

(** ** The recommendation client at its edges *)

(** X12: [fetchRecommendations] makes one request, writes nothing to the
    page or the console unless the status is a failure, and passes on
    unchanged what it gets: the exception of a rejected [fetch], and for a
    success status whatever [response.json()] settles to, a parsed body of
    any shape or the exception of the parser. *)
Theorem fetchRecommendations_passes_on net d p s :
  requests net (fetchRecommendations d p s) = [route_url d p]
  /\ match net (route_url d p) with
     | Rejected e => run net (fetchRecommendations d p s) = (Throw e, s)
     | Resolved r =>
         if ok r then run net (fetchRecommendations d p s) = (json r, s)
         else exists e, fst (run net (fetchRecommendations d p s)) = Throw e
     end.
Proof.
  split; [apply requests_fetchRecommendations|].
  destruct (net (route_url d p)) as [r|e] eqn:Hnet.
  - destruct (ok r) eqn:Hok.
    + by apply run_fetchRecommendations_ok.
    + unfold fetchRecommendations, await_fetch, try_catch, await_json, console_log, throw.
      run_M. simpl. fold (route_url d p). rewrite Hnet. simpl. rewrite Hok. simpl.
      cases; eauto.
  - by apply run_fetchRecommendations_rejected.
Qed.

(** X13: a failure status with a body that parses but is no object: for a
    boolean, a number, a string or an array the failure carries the status
    and the message "Server responded with status: N" and the console stays
    as it is; for [null] it is the same failure, and the console gets the
    warning that the body could not be parsed. *)
Theorem failure_with_non_object_body net d p s r body :
  net (route_url d p) = Resolved r ->
  ok r = false ->
  json r = Ok body ->
  match body with
  | VObj _ | VUndefined => True
  | VNull =>
      run net (fetchRecommendations d p s)
      = (Throw {| err_name := "Error";
                  err_message := "Server responded with status: " +:+ string_of_nat (status r);
                  err_status := Some (status r) |},
         set_console (console s ++ ["Could not parse error response body as JSON."]) s)
  | VBool _ | VNum _ | VStr _ | VArr _ =>
      run net (fetchRecommendations d p s)
      = (Throw {| err_name := "Error";
                  err_message := "Server responded with status: " +:+ string_of_nat (status r);
                  err_status := Some (status r) |}, s)
  end.
Proof.
  intros Hnet Hok Hjson.
  unfold fetchRecommendations, await_fetch, try_catch, await_json, console_log, throw.
  run_M. simpl. fold (route_url d p). rewrite Hnet. simpl. rewrite Hok. simpl.
  rewrite Hjson. by destruct body.
Qed.

(** X14: the URL of a request determines the destination and the preference
    it was built from: two calls that request the same URL were given the
    same destination and the same preference. *)
Theorem request_determines_query net net' d p s d' p' s' :
  requests net (fetchRecommendations d p s) = requests net' (fetchRecommendations d' p' s') ->
  d = d' /\ p = p'.
Proof.
  rewrite !requests_fetchRecommendations. intros Hrequests.
  assert (Hurl : parameters (route_url d p) = parameters (route_url d' p'))
    by congruence.
  rewrite !parameters_route_url in Hurl.
  assert (Hd : encodeURIComponent d = encodeURIComponent d') by congruence.
  assert (Hp : encodeURIComponent p = encodeURIComponent p') by congruence.
  apply (f_equal percent_decode) in Hd, Hp.
  by rewrite !percent_decode_encodeURIComponent in Hd, Hp.
Qed.

(** ** The renderer at its edges *)

(** X15: an entry with numeric cost and CO2 but without mode, duration and
    source is rendered, not rejected: it has no icon, the word "undefined"
    stands for the mode and for the duration, and the source reads "Unknown
    Cloud". *)
Theorem entry_without_mode_and_duration fields cost co2 :
  fields !! "mode" = None ->
  fields !! "duration_minutes" = None ->
  fields !! "cost_usd" = Some (VNum cost) ->
  fields !! "environmental_impact_co2_kg" = Some (VNum co2) ->
  fields !! "source_cloud" = None ->
  render_recommendation (VObj fields)
  = Ok (li_template EmptyString "undefined" "undefined" (Number_toFixed2 cost)
          (Number_toFixed2 co2) "Unknown Cloud").
Proof.
  intros Hmode Hduration Hcost Hco2 Hsource.
  unfold render_recommendation, Get.
  by rewrite Hmode, Hduration, Hcost, Hco2, Hsource.
Qed.


(** X17: an [origin] that is no object, whatever else it is, gives the "not
    available" banner without raising. *)
Theorem non_object_origin fields v s :
  match v with
  | VObj _ => True
  | _ =>
      display_origin (VObj (<["origin" := v]> fields)) s
      = Settled (Ok tt)
          (set_originInfoDiv_innerHTML "<p>Origin information not available.</p>" s)
  end.
Proof.
  destruct v as [| |b|n|t| |]; try done;
    unfold display_origin, Get; run_M; lookups; simpl; try done.
  - by destruct b.
  - destruct (Number_ToBoolean n) eqn:E; simpl; [done|by rewrite E].
  - by destruct t.
Qed.

(** X18: a body that is [null] makes [displayResults] raise a [TypeError]
    at its first property read and leaves the page untouched; a body that is a boolean, a
    number, a string or an array has none of the three fields and gives the
    three empty states. *)
Theorem displayResults_on_non_object data s :
  match data with
  | VObj _ | VUndefined => True
  | VNull =>
      exists e, displayResults data s = Settled (Throw e) s /\ err_name e = "TypeError"
  | VBool _ | VNum _ | VStr _ | VArr _ =>
      displayResults data s
      = Settled (Ok tt)
          (set_recommendationList [no_recommendations]
             (set_notesInfoDiv_display "none"
                (set_originInfoDiv_innerHTML "<p>Origin information not available.</p>" s)))
  end.
Proof. destruct data; try done. eexists. by split. Qed.

(** ** The validation guard and the text of the destination *)

Lemma trim_blank s : blank s = true -> trim s = EmptyString.
Proof.
  intros Hs. unfold trim.
  assert (trimStart s = EmptyString) as ->; [|done].
  induction s as [|c s IH]; [done|].
  simpl in Hs. apply andb_prop in Hs as [Hc Hs].
  simpl. rewrite Hc. auto.
Qed.

Lemma ws1_not_visible c : ws1 c = true -> visible c = false.
Proof.
  unfold ws1, visible. set (n := nat_of_ascii c). clearbody n.
  rewrite orb_true_iff, andb_true_iff, andb_false_iff, !Nat.leb_le, !Nat.leb_gt, Nat.eqb_eq.
  lia.
Qed.

Lemma ws2_not_visible c1 c2 :
  ws2 c1 c2 = true -> visible c1 = false /\ visible c2 = false.
Proof.
  unfold ws2, visible.
  set (a := nat_of_ascii c1). set (b := nat_of_ascii c2). clearbody a b.
  rewrite andb_true_iff, !andb_false_iff, !Nat.leb_gt, !Nat.eqb_eq.
  lia.
Qed.

Lemma ws3_not_visible c1 c2 c3 :
  ws3 c1 c2 c3 = true -> visible c1 = false /\ visible c2 = false /\ visible c3 = false.
Proof.
  unfold ws3, visible.
  set (a := nat_of_ascii c1). set (b := nat_of_ascii c2). set (c := nat_of_ascii c3).
  clearbody a b c.
  rewrite !orb_true_iff, !andb_true_iff, !orb_true_iff, !andb_true_iff, !andb_false_iff,
    !Nat.leb_le, !Nat.leb_gt, !Nat.eqb_eq.
  lia.
Qed.

(** [trimStart] removes white space only. *)
Lemma trimStart_visible n :
  forall s, (String.length s <= n)%nat -> has_visible s = true ->
            has_visible (trimStart s) = true.
Proof.
  induction n as [|n IH]; intros [|c1 r1] Hlen Hv; try done; simpl in Hlen; [lia|].
  cbn [trimStart]. destruct (ws1 c1) eqn:E1.
  { apply ws1_not_visible in E1. cbn [has_visible] in Hv. rewrite E1 in Hv.
    apply IH; [lia|done]. }
  destruct r1 as [|c2 r2]; [done|]. destruct (ws2 c1 c2) eqn:E2.
  { apply ws2_not_visible in E2 as [V1 V2]. cbn [has_visible] in Hv.
    rewrite V1, V2 in Hv. simpl in Hlen. apply IH; [lia|done]. }
  destruct r2 as [|c3 r3]; [done|]. destruct (ws3 c1 c2 c3) eqn:E3.
  { apply ws3_not_visible in E3 as (V1 & V2 & V3). cbn [has_visible] in Hv.
    rewrite V1, V2, V3 in Hv. simpl in Hlen. apply IH; [lia|done]. }
  done.
Qed.

Lemma trim_visible s : has_visible s = true -> trim s <> EmptyString.
Proof.
  intros Hv. unfold trim.
  pose proof (trimStart_visible _ s (le_n _) Hv) as Ht.
  destruct (trimStart s) as [|c t] eqn:E; [done|].
  pose proof (trimStart_visible _ (String c t) (le_n _) Ht) as Ht2.
  cbn [trimEnd]. by destruct (trimStart (String c t)).
Qed.

(** X19: a destination of spaces, tabs and line breaks only is rejected like
    an empty one: no request is made, and the page gets the validation
    message and no other change. *)
Theorem blank_destination_rejected net s :
  blank (destinationInput_value s) = true ->
  requests net (on_submit s) = []
  /\ run net (on_submit s) = (Ok tt, with_error "Please enter a destination city." s).
Proof.
  intros Hs. apply trim_blank in Hs.
  rewrite on_submit_invalid by (by rewrite Hs). by split.
Qed.

(** X20: a destination that holds a printable character other than the
    space passes validation, whatever white space is around it: the listener
    makes its one request, for the trimmed destination. *)
Theorem visible_destination_requested net s :
  has_visible (destinationInput_value s) = true ->
  trim (destinationInput_value s) <> EmptyString
  /\ requests net (on_submit s)
     = [route_url (trim (destinationInput_value s)) (selected (preferenceSelect s))].
Proof.
  intros Hv. apply trim_visible in Hv. split; [done|].
  apply requests_on_submit. by apply is_empty_false.
Qed.

(** ** Icons *)

(** X21: an entry gets an icon exactly when its mode is one of the six
    strings of lines 86-91, in this spelling: a mode in capitals, a mode that
    is no string and a missing mode get none. *)
Theorem icon_for_known_modes_only v :
  mode_icon v <> EmptyString <-> exists m, v = VStr m /\ m ∈ known_modes.
Proof.
  destruct v as [| |b|n|m| |]; try (split; [done|by intros (m & [=] & _)]).
  unfold mode_icon, strict_eq_string, known_modes.
  destruct (String.eqb_spec m "car") as [->|H1];
    [split; [intros _; exists "car"; split; [done|set_solver]|done]|].
  destruct (String.eqb_spec m "bus") as [->|H2];
    [split; [intros _; exists "bus"; split; [done|set_solver]|done]|].
  destruct (String.eqb_spec m "train") as [->|H3];
    [split; [intros _; exists "train"; split; [done|set_solver]|done]|].
  destruct (String.eqb_spec m "bicycle") as [->|H4];
    [split; [intros _; exists "bicycle"; split; [done|set_solver]|done]|].
  destruct (String.eqb_spec m "walking") as [->|H5];
    [split; [intros _; exists "walking"; split; [done|set_solver]|done]|].
  destruct (String.eqb_spec m "scooter") as [->|H6];
    [split; [intros _; exists "scooter"; split; [done|set_solver]|done]|].
  split; [done|]. intros (m' & [= <-] & Hin).
  rewrite !elem_of_cons, elem_of_nil in Hin.
  by destruct Hin as [?|[?|[?|[?|[?|[?|[]]]]]]].
Qed.

(** ** From the stored preference to the request *)

(** X22: the preference that was saved is the one that the next visit
    sends: after [savePreference], a reload and [loadPreference], a submit
    of any destination that passes validation requests the route for the
    saved preference. *)
Theorem saved_preference_requested net fresh s d :
  selected (preferenceSelect s) ∈ options (preferenceSelect fresh) ->
  selected (preferenceSelect s) <> EmptyString ->
  trim d <> EmptyString ->
  exists s1 s2,
    savePreference s = Settled (Ok tt) s1
    /\ loadPreference (reload fresh s1) = Settled (Ok tt) s2
    /\ requests net (on_submit (set_destinationInput_value d s2))
       = [route_url (trim d) (selected (preferenceSelect s))].
Proof.
  intros Hin Hne Hd. apply is_empty_false in Hne. apply is_empty_false in Hd.
  eexists _, _. split; [reflexivity|]. split.
  - unfold loadPreference, gets. run_M. simpl localStorage.
    rewrite lookup_insert_eq, Hne. simpl. reflexivity.
  - rewrite requests_on_submit by done. simpl.
    by rewrite bool_decide_eq_true_2.
Qed.

(** ** An error field that is no string *)

(** X23: on a failure status, an [error] field of the body that is truthy
    but no string (a number, [true], an array, an object) becomes the
    message through its conversion to a string, and the failure carries the
    status; nothing is written to the console. *)
Theorem failure_message_of_any_value net d p s r fields v text :
  net (route_url d p) = Resolved r ->
  ok r = false ->
  json r = Ok (VObj fields) ->
  fields !! "error" = Some v ->
  ToBoolean v = true ->
  ToString v = Ok text ->
  run net (fetchRecommendations d p s)
  = (Throw {| err_name := "Error"; err_message := text; err_status := Some (status r) |}, s).
Proof.
  intros Hnet Hok Hjson Herror Htrue Htext.
  unfold fetchRecommendations, await_fetch, try_catch, await_json, console_log, throw.
  run_M. simpl. fold (route_url d p). rewrite Hnet. simpl. rewrite Hok. simpl.
  rewrite Hjson. simpl. unfold Get. rewrite Herror. simpl. rewrite Htrue. simpl.
  by rewrite Htext.
Qed.

End Properties.

(** * The properties on sample runs *)

Import Cents.
Import Samples.

(** ** Primitives *)

Example trim_examples :
  trim "  New York  " = "New York"
  /\ trim (String (ascii_of_nat 9) " " +:+ newline) = EmptyString
  /\ trim "   " = EmptyString
  /\ trim (String (ascii_of_nat 194) (String (ascii_of_nat 160) "Rome")) = "Rome".
Proof. repeat split; reflexivity. Qed.

Example encodeURIComponent_examples :
  encodeURIComponent "New York" = "New%20York"
  /\ encodeURIComponent "a&b=c?d#e/f" = "a%26b%3Dc%3Fd%23e%2Ff"
  /\ encodeURIComponent "Zürich" = "Z%C3%BCrich"
  /\ encodeURIComponent "O'Hare_(1).~!*" = "O'Hare_(1).~!*".
Proof. repeat split; reflexivity. Qed.

Example cents_examples :
  Number_toString (Some 12000%Z) = "120"
  /\ Number_toString (Some 2550%Z) = "25.5"
  /\ Number_toFixed2 (Some 2550%Z) = "25.50"
  /\ Number_toFixed2 (Some 1575%Z) = "15.75"
  /\ Number_toFixed2 (Some (-5)%Z) = "-0.05"
  /\ StringToNumber " 12.5 " = Some 1250%Z
  /\ StringToNumber "twelve" = None.
Proof. repeat split; reflexivity. Qed.

Example icons :
  map expected_icon ["car"; "bus"; "train"; "bicycle"; "walking"; "scooter"; "ferry"; "Car"]
  = ["🚗"; "🚌"; "🚆"; "🚲"; "🚶"; "🛴"; EmptyString; EmptyString].
Proof. reflexivity. Qed.

(** ** The renderer on the sample payloads *)

Example paris_rendered :
  let s' := rendered paris page in
  displayResults (value_of_RouteResponse paris) page = Settled (Ok tt) s'
  /\ originInfoDiv_innerHTML s' = "<p><strong>Detected Origin:</strong> Paris</p>"
  /\ notesInfoDiv_display s' = "none"
  /\ recommendationList s' = [Li (li_template "🚗" "car" "120" "25.50" "15.75" "GCP")].
Proof. split; [apply displayResults_well_formed|]. vm_compute. by repeat split. Qed.

Example no_recommendations_rendered :
  fst (run offline (displayResults (VObj (<["recommendations" := VArr []]> ∅)) page)) = Ok tt
  /\ recommendationList
       (snd (run offline (displayResults (VObj (<["recommendations" := VArr []]> ∅)) page)))
     = [Markup "<li>No recommendations found matching your criteria.</li>"].
Proof. vm_compute. by split. Qed.

(** C1, counterexample: a recommendation without [cost_usd] makes
    [displayResults] raise a [TypeError]. *)
Lemma displayResults_raises_without_cost :
  fst (run offline (displayResults missing_cost page))
  = Throw (TypeError "Cannot read properties of undefined (reading 'toFixed')")
  /\ ~ (exists s', displayResults missing_cost page = Settled (Ok tt) s').
Proof.
  split.
  - vm_compute. reflexivity.
  - intros [s' E]. apply (f_equal (fun t => fst (run offline t))) in E.
    vm_compute in E. discriminate E.
Qed.

(** Witness of C1: the entry of the counterexample has no [cost_usd]. *)
Lemma displayResults_on_entries_witness :
  let fields : gmap string value :=
    <["mode" := VStr "car"]> (<["duration_minutes" := VNum (Some 12000%Z)]> ∅) in
  is_number (default VUndefined (fields !! "cost_usd")) = false
  /\ (exists e, render_recommendation (VObj fields) = Throw e)
  /\ (exists e s',
        displayResults (response_object None None (Some (VArr [VObj fields]))) page
        = Settled (Throw e) s').
Proof.
  intros fields.
  assert (Hcost : is_number (default VUndefined (fields !! "cost_usd")) = false)
    by (vm_compute; reflexivity).
  destruct displayResults_on_entries as (_ & Hentry & Hlist).
  split; [exact Hcost|]. split.
  - apply Hentry. by left.
  - apply Hlist. constructor. apply Hentry. by left.
Defined.

(** C9, counterexample: the origin has a city, the empty string, and the
    banner reads "Origin information not available." rather than "Detected
    Origin:" followed by that city. *)
Lemma empty_city_not_announced :
  let s' := snd (run offline (displayResults (value_of_RouteResponse empty_city) page)) in
  (rr_origin empty_city ≫= origin_city) = Some EmptyString
  /\ originInfoDiv_innerHTML s' = "<p>Origin information not available.</p>"
  /\ originInfoDiv_innerHTML s'
     <> "<p><strong>Detected Origin:</strong> " +:+ EmptyString +:+ "</p>".
Proof. vm_compute. repeat split; discriminate. Qed.

(** ** The controller on the sample gateways *)

Example backend_unavailable_shown :
  errorDiv_textContent
    (snd (run (answers 500 (Ok (value_of_ErrorBody backend_unavailable)))
            (on_submit (typed "Paris" page))))
  = "Error: backend unavailable".
Proof. vm_compute. reflexivity. Qed.

Example unparseable_body_shown :
  errorDiv_textContent
    (snd (run (answers 500 (Throw syntax_error)) (on_submit (typed "Paris" page))))
  = "Error: Server responded with status: 500".
Proof. vm_compute. reflexivity. Qed.

Example offline_shown :
  errorDiv_textContent (snd (run offline (on_submit (typed "Paris" page))))
  = "Error: Failed to fetch".
Proof. vm_compute. reflexivity. Qed.

(** C2, counterexample: after a trip to Paris was shown, a submit with a
    blank destination puts the validation message on the error line and
    leaves the origin banner and the list of the earlier result in place. *)
Lemma validation_error_beside_stale_result :
  let s' := snd (run offline (on_submit (typed "   " shown))) in
  errorDiv_textContent s' = "Error: Please enter a destination city."
  /\ errorDiv_display s' = "block"
  /\ originInfoDiv_innerHTML s' = "<p><strong>Detected Origin:</strong> Paris</p>"
  /\ recommendationList s' = [Li (li_template "🚗" "car" "120" "25.50" "15.75" "GCP")].
Proof. vm_compute. repeat split; reflexivity. Qed.

(** C3, counterexample: the body has an [error] field, the empty string, and
    the message of the failure is the [details] text instead. *)
Lemma empty_error_text_skipped :
  eb_error empty_error = Some EmptyString
  /\ fst (run (answers 500 (Ok (value_of_ErrorBody empty_error)))
            (fetchRecommendations "Paris" "fastest" page))
     = Throw {| err_name := "Error"; err_message := "route service down";
                err_status := Some 500 |}
  /\ errorDiv_textContent
       (snd (run (answers 500 (Ok (value_of_ErrorBody empty_error)))
               (on_submit (typed "Paris" page))))
     = "Error: route service down".
Proof. repeat split; vm_compute; reflexivity. Qed.

(** Witness of C2: the same submit from the page that shows Paris and from
    the blank page. *)
Lemma no_stale_results_witness :
  destinationInput_value (typed "Rome" shown) = destinationInput_value (typed "Rome" page)
  /\ selected (preferenceSelect (typed "Rome" shown))
     = selected (preferenceSelect (typed "Rome" page))
  /\ trim (destinationInput_value (typed "Rome" shown)) <> EmptyString
  /\ Forall (fun s => regions s = cleared_regions)
       (suspended offline (on_submit (typed "Rome" shown)))
  /\ regions (snd (run offline (on_submit (typed "Rome" shown))))
     = regions (snd (run offline (on_submit (typed "Rome" page)))).
Proof.
  split; [reflexivity|]. split; [reflexivity|]. split; [discriminate|].
  apply (no_stale_results offline (typed "Rome" shown) (typed "Rome" page));
    [reflexivity|reflexivity|discriminate].
Defined.

(** Witness of C3: a 500 whose body says "backend unavailable". *)
Lemma failure_message_witness :
  let net := answers 500 (json_of_error_body (Parsed backend_unavailable)) in
  let s := typed "Paris" page in
  trim (destinationInput_value s) <> EmptyString
  /\ net (route_url (trim (destinationInput_value s)) (selected (preferenceSelect s)))
     = Resolved (mkResponse 500 (json_of_error_body (Parsed backend_unavailable)))
  /\ ok (mkResponse 500 (json_of_error_body (Parsed backend_unavailable))) = false
  /\ fst (run net (fetchRecommendations (trim (destinationInput_value s))
                     (selected (preferenceSelect s)) s))
     = Throw {| err_name := "Error";
                err_message := expected_message 500 (Parsed backend_unavailable);
                err_status := Some 500 |}
  /\ errorDiv_textContent (snd (run net (on_submit s)))
     = "Error: " +:+ expected_message 500 (Parsed backend_unavailable)
  /\ errorDiv_display (snd (run net (on_submit s))) = "block".
Proof.
  intros net s.
  split; [discriminate|]. split; [reflexivity|]. split; [reflexivity|].
  apply (failure_message net s 500 (Parsed backend_unavailable));
    [discriminate|reflexivity|reflexivity].
Defined.

(** Witness of C4: a destination of three spaces. *)
Lemma empty_destination_rejected_witness :
  let s := typed "   " page in
  trim (destinationInput_value s) = EmptyString
  /\ requests offline (on_submit s) = []
  /\ suspended offline (on_submit s) = []
  /\ exists s',
       on_submit s = Settled (Ok tt) s'
       /\ errorDiv_textContent s' = "Error: Please enter a destination city."
       /\ errorDiv_display s' = "block".
Proof.
  intros s. split; [reflexivity|].
  apply (empty_destination_rejected offline s). reflexivity.
Defined.

(** Witness of C6: "cheapest" is saved and restored. *)
Lemma preference_round_trip_witness :
  let s := set_preferenceSelect (set_select_value "cheapest" (preferenceSelect page)) page in
  selected (preferenceSelect s) = "cheapest"
  /\ "cheapest" ∈ options (preferenceSelect page)
  /\ "cheapest" <> EmptyString
  /\ (exists s1 s2,
        savePreference s = Settled (Ok tt) s1
        /\ localStorage s1 !! PREFERENCE_STORAGE_KEY = Some "cheapest"
        /\ loadPreference (reload page s1) = Settled (Ok tt) s2
        /\ selected (preferenceSelect s2) = "cheapest")
  /\ (forall s0, localStorage s0 !! PREFERENCE_STORAGE_KEY = None ->
                 loadPreference s0 = Settled (Ok tt) s0).
Proof.
  intros s.
  assert (Hin : "cheapest" ∈ options (preferenceSelect page)) by (simpl; set_solver).
  split; [reflexivity|]. split; [exact Hin|]. split; [discriminate|].
  apply (preference_round_trip page s "cheapest"); [reflexivity|exact Hin|discriminate].
Defined.

(** Witness of C7: a destination with blanks around and inside. *)
Lemma one_request_two_parameters_witness :
  let s := typed "  New York " page in
  trim (destinationInput_value s) <> EmptyString
  /\ exists url query,
       requests offline (on_submit s) = [url]
       /\ cut "?" url = ("/api/route", Some query)
       /\ parameters url
          = [("destination", encodeURIComponent (trim (destinationInput_value s)));
             ("preference", encodeURIComponent (selected (preferenceSelect s)))]
       /\ percent_decode (encodeURIComponent (trim (destinationInput_value s)))
          = trim (destinationInput_value s)
       /\ percent_decode (encodeURIComponent (selected (preferenceSelect s)))
          = selected (preferenceSelect s).
Proof.
  intros s. split; [discriminate|].
  apply (one_request_two_parameters offline s). discriminate.
Defined.

Example new_york_request :
  requests offline (on_submit (typed "  New York " page))
  = ["/api/route?destination=New%20York&preference=fastest"].
Proof. vm_compute. reflexivity. Qed.

(** ** Further properties on sample runs *)

Import Cases.

(** Witness of X5: the network is down. *)
Lemma transport_failure_shown_witness :
  let s := typed "Paris" page in
  let e := TypeError "Failed to fetch" in
  trim (destinationInput_value s) <> EmptyString
  /\ offline (route_url (trim (destinationInput_value s)) (selected (preferenceSelect s)))
     = Rejected e
  /\ (let s' := snd (run offline (on_submit s)) in
      errorDiv_textContent s'
      = "Error: " +:+ (if is_empty (err_message e) then "An unknown error occurred."
                       else err_message e)
      /\ errorDiv_display s' = "block"
      /\ originInfoDiv_innerHTML s' = EmptyString
      /\ notesInfoDiv_innerHTML s' = EmptyString
      /\ recommendationList s' = []
      /\ (exists line, console s' = (console s ++ [line])%list)
      /\ notesInfoDiv_display s' = notesInfoDiv_display s).
Proof.
  intros s e. split; [discriminate|]. split; [reflexivity|].
  apply (transport_failure_shown offline s e); [discriminate|].
  left. reflexivity.
Defined.

(** Witness of X6: the trip to Paris. *)
Lemma success_shown_witness :
  let net := answers 200 (Ok (value_of_RouteResponse paris)) in
  let s := typed "Paris" page in
  let r := mkResponse 200 (Ok (value_of_RouteResponse paris)) in
  trim (destinationInput_value s) <> EmptyString
  /\ net (route_url (trim (destinationInput_value s)) (selected (preferenceSelect s)))
     = Resolved r
  /\ ok r = true
  /\ json r = Ok (value_of_RouteResponse paris)
  /\ (let s' := snd (run net (on_submit s)) in
      run net (on_submit s) = (Ok tt, restored (rendered paris (loading s)))
      /\ resultsArea_display s' = "block"
      /\ errorDiv_textContent s' = EmptyString
      /\ errorDiv_display s' = "none"
      /\ originInfoDiv_innerHTML s' = expected_origin_markup (rr_origin paris)
      /\ recommendationList s' = expected_list (rr_recommendations paris)
      /\ console s' = console s).
Proof.
  intros net s r. split; [discriminate|]. split; [reflexivity|].
  split; [reflexivity|]. split; [reflexivity|].
  apply (success_shown net s r paris); [discriminate|reflexivity..].
Defined.

(** Witness of X7: a car, then an entry without cost. *)
Lemma rendering_failure_shown_witness :
  let net := answers 200 (Ok broken_list) in
  let s := typed "Paris" page in
  let r := mkResponse 200 (Ok broken_list) in
  trim (destinationInput_value s) <> EmptyString
  /\ net (route_url (trim (destinationInput_value s)) (selected (preferenceSelect s)))
     = Resolved r
  /\ ok r = true
  /\ json r = Ok broken_list
  /\ render_recommendation no_cost = Throw no_toFixed
  /\ (let s' := snd (run net (on_submit s)) in
      originInfoDiv_innerHTML s' = expected_origin_markup (Some (mkOrigin None (Some "Paris")))
      /\ recommendationList s' = map expected_entry [car]
      /\ errorDiv_textContent s'
         = "Error: " +:+ (if is_empty (err_message no_toFixed)
                          then "An unknown error occurred."
                          else err_message no_toFixed)
      /\ errorDiv_display s' = "block"
      /\ submitButton_disabled s' = false).
Proof.
  intros net s r.
  assert (Hbad : render_recommendation no_cost = Throw no_toFixed)
    by (vm_compute; reflexivity).
  split; [discriminate|]. split; [reflexivity|].
  split; [reflexivity|]. split; [reflexivity|]. split; [exact Hbad|].
  apply (rendering_failure_shown net s r (Some (mkOrigin None (Some "Paris"))) None
           [car] no_cost [] no_toFixed);
    [discriminate|reflexivity|reflexivity|reflexivity|exact Hbad].
Defined.

(** Witness of X3: the results area of the blank page is hidden. *)
Lemma results_area_revealed_witness :
  let s := typed "Paris" page in
  trim (destinationInput_value s) <> EmptyString
  /\ resultsArea_display (snd (run offline (on_submit s))) = "block"
  /\ Forall (fun s' => resultsArea_display s' = "block") (suspended offline (on_submit s)).
Proof.
  intros s. split; [discriminate|].
  apply (results_area_revealed offline s). discriminate.
Defined.

(** Witness of X11: "scenic" is stored and not offered. *)
Lemma loadPreference_unknown_value_witness :
  localStorage stored_scenic !! PREFERENCE_STORAGE_KEY = Some "scenic"
  /\ "scenic" <> EmptyString
  /\ ("scenic" ∉ options (preferenceSelect stored_scenic))
  /\ (exists s',
        loadPreference stored_scenic = Settled (Ok tt) s'
        /\ selected (preferenceSelect s') = EmptyString).
Proof.
  assert (Hstored : localStorage stored_scenic !! PREFERENCE_STORAGE_KEY = Some "scenic")
    by (vm_compute; reflexivity).
  assert (Hout : "scenic" ∉ options (preferenceSelect stored_scenic))
    by (simpl; rewrite !elem_of_cons, elem_of_nil; intros [?|[?|[?|[]]]]; discriminate).
  split; [exact Hstored|]. split; [discriminate|]. split; [exact Hout|].
  apply (loadPreference_unknown_value stored_scenic "scenic");
    [exact Hstored|discriminate|exact Hout].
Defined.

(** Witness of X13: a 502 whose body is [null]. *)
Lemma failure_with_non_object_body_witness :
  let net := answers 502 (Ok VNull) in
  let r := mkResponse 502 (Ok VNull) in
  net (route_url "Paris" "fastest") = Resolved r
  /\ ok r = false
  /\ json r = Ok VNull
  /\ run net (fetchRecommendations "Paris" "fastest" page)
     = (Throw {| err_name := "Error";
                 err_message := "Server responded with status: " +:+ string_of_nat (status r);
                 err_status := Some (status r) |},
        set_console (console page ++ ["Could not parse error response body as JSON."]) page).
Proof.
  intros net r. split; [reflexivity|]. split; [reflexivity|]. split; [reflexivity|].
  apply (failure_with_non_object_body net "Paris" "fastest" page r VNull); reflexivity.
Defined.

(** Witness of X14: the same request twice. *)
Lemma request_determines_query_witness :
  requests offline (fetchRecommendations "New York" "greenest" page)
  = requests (answers 200 (Ok VNull)) (fetchRecommendations "New York" "greenest" shown)
  /\ "New York" = "New York" /\ "greenest" = "greenest".
Proof.
  assert (Hsame :
    requests offline (fetchRecommendations "New York" "greenest" page)
    = requests (answers 200 (Ok VNull)) (fetchRecommendations "New York" "greenest" shown))
    by (vm_compute; reflexivity).
  split; [exact Hsame|].
  apply (request_determines_query offline (answers 200 (Ok VNull))
           "New York" "greenest" page "New York" "greenest" shown Hsame).
Defined.

(** Witness of X15: an entry with a cost and a CO2 impact only. *)
Lemma entry_without_mode_and_duration_witness :
  numbers_only !! "mode" = None
  /\ numbers_only !! "duration_minutes" = None
  /\ numbers_only !! "cost_usd" = Some (VNum (Some 3500%Z))
  /\ numbers_only !! "environmental_impact_co2_kg" = Some (VNum (Some 520%Z))
  /\ numbers_only !! "source_cloud" = None
  /\ render_recommendation (VObj numbers_only)
     = Ok (li_template EmptyString "undefined" "undefined"
             (Number_toFixed2 (Some 3500%Z)) (Number_toFixed2 (Some 520%Z)) "Unknown Cloud").
Proof.
  assert (H1 : numbers_only !! "mode" = None) by reflexivity.
  assert (H2 : numbers_only !! "duration_minutes" = None) by reflexivity.
  assert (H3 : numbers_only !! "cost_usd" = Some (VNum (Some 3500%Z)))
    by reflexivity.
  assert (H4 : numbers_only !! "environmental_impact_co2_kg" = Some (VNum (Some 520%Z)))
    by reflexivity.
  assert (H5 : numbers_only !! "source_cloud" = None) by reflexivity.
  split; [exact H1|]. split; [exact H2|]. split; [exact H3|]. split; [exact H4|].
  split; [exact H5|].
  apply (entry_without_mode_and_duration numbers_only (Some 3500%Z) (Some 520%Z) H1 H2 H3 H4 H5).
Defined.

(** Witness of X19: three spaces. *)
Lemma blank_destination_rejected_witness :
  let s := typed "   " page in
  blank (destinationInput_value s) = true
  /\ requests offline (on_submit s) = []
  /\ run offline (on_submit s) = (Ok tt, with_error "Please enter a destination city." s).
Proof.
  intros s. split; [reflexivity|].
  apply (blank_destination_rejected offline s). reflexivity.
Defined.

(** Witness of X20: a name between blanks. *)
Lemma visible_destination_requested_witness :
  let s := typed "  New York " page in
  has_visible (destinationInput_value s) = true
  /\ trim (destinationInput_value s) <> EmptyString
  /\ requests offline (on_submit s)
     = [route_url (trim (destinationInput_value s)) (selected (preferenceSelect s))].
Proof.
  intros s. split; [reflexivity|].
  apply (visible_destination_requested offline s). reflexivity.
Defined.

Example capital_mode_without_icon : mode_icon (VStr "Car") = EmptyString.
Proof. reflexivity. Qed.

(** Witness of X22: "greenest" is chosen, then Lyon is asked for on the
    next visit. *)
Lemma saved_preference_requested_witness :
  let s := set_preferenceSelect (set_select_value "greenest" (preferenceSelect page)) page in
  selected (preferenceSelect s) ∈ options (preferenceSelect page)
  /\ selected (preferenceSelect s) <> EmptyString
  /\ trim "Lyon" <> EmptyString
  /\ (exists s1 s2,
        savePreference s = Settled (Ok tt) s1
        /\ loadPreference (reload page s1) = Settled (Ok tt) s2
        /\ requests offline (on_submit (set_destinationInput_value "Lyon" s2))
           = [route_url (trim "Lyon") (selected (preferenceSelect s))]).
Proof.
  intros s.
  assert (Hin : selected (preferenceSelect s) ∈ options (preferenceSelect page))
    by (simpl; set_solver).
  split; [exact Hin|]. split; [discriminate|]. split; [discriminate|].
  apply (saved_preference_requested offline page s "Lyon"); [exact Hin|discriminate..].
Defined.

(** Witness of X23: a 404 whose body is [{"error": 404}]. *)
Lemma failure_message_of_any_value_witness :
  let body := <["error" := VNum (Some 40400%Z)]> ∅ in
  let net := answers 404 (Ok (VObj body)) in
  let r := mkResponse 404 (Ok (VObj body)) in
  net (route_url "Paris" "fastest") = Resolved r
  /\ ok r = false
  /\ json r = Ok (VObj body)
  /\ body !! "error" = Some (VNum (Some 40400%Z))
  /\ ToBoolean (VNum (Some 40400%Z)) = true
  /\ ToString (VNum (Some 40400%Z)) = Ok "404"
  /\ run net (fetchRecommendations "Paris" "fastest" page)
     = (Throw {| err_name := "Error"; err_message := "404"; err_status := Some (status r) |},
        page).
Proof.
  intros body net r.
  split; [reflexivity|]. split; [reflexivity|]. split; [reflexivity|].
  split; [reflexivity|]. split; [reflexivity|]. split; [reflexivity|].
  apply (failure_message_of_any_value net "Paris" "fastest" page r body
           (VNum (H := numbers) (Some 40400%Z)) "404"); reflexivity.
Defined.
